(** * datagovmy-mcp: dataset index search/listing and the API client

    A shallow embedding of the TypeScript server ([src/cli.js], the
    [CallToolRequestSchema] handler) and of the API client
    ([src/src/client.ts], class [DataGovMyClient]), together with the
    properties stated about them in the specification.

    Conventions of the embedding.
    - A JavaScript string is a [string]; [===] on strings is [String.eqb].
    - A JavaScript number that the code uses as a count, an index or a score
      is an integer of [Z] (scores are sums of small integers, far below
      2^53, so no rounding occurs).
    - An optional argument ([x?: T]) is an [option]; [undefined] is [None].
    - [String.prototype.toLowerCase] is a parameter of the development: the
      general theorems hold for every lower-casing function, and the concrete
      examples instantiate it with ASCII lower-casing.
    - [Array.prototype.slice] and [Array.prototype.sort] are modelled in
      module [JS] following ECMA-262 (relative indices for [slice], a stable
      comparator sort for [sort]). *)

From Stdlib Require Import ZArith List String Ascii Bool Lia.
From Stdlib Require Import Sorted Permutation DecimalString DecimalZ.
From Stdlib Require Import DecimalPos.
Import ListNotations.

Open Scope string_scope.
Open Scope list_scope.
Open Scope Z_scope.

(** ** JavaScript built-ins used by the program *)

Module JS.

(** Truthiness of an optional string: [undefined] and [""] are falsy. *)
Definition truthy (s : option string) : bool :=
  match s with
  | None => false
  | Some s => negb (s =? "")%string
  end.

(** [s.includes(q)]: [q] occurs in [s] as a contiguous substring. *)
Fixpoint includes (s q : string) : bool :=
  String.prefix q s ||
  match s with
  | EmptyString => false
  | String _ s' => includes s' q
  end.

(** [l.slice(start, end)] with ECMA-262's relative indices: a negative index
    counts from the end of the array, and both are clamped to [0, len]. *)
Definition slice {A : Type} (start fin : Z) (l : list A) : list A :=
  let len := Z.of_nat (List.length l) in
  let k := if start <? 0 then Z.max (len + start) 0 else Z.min start len in
  let final := if fin <? 0 then Z.max (len + fin) 0 else Z.min fin len in
  firstn (Z.to_nat (final - k)) (skipn (Z.to_nat k) l).

(** [l.sort(cmp)]: ECMA-262 (2019 and later) requires a stable sort; for a
    consistent comparator the result is then unique (see
    [stable_sort_unique] below), so any stable algorithm is a faithful model.
    [cmp x y > 0] means that [x] is placed after [y]. *)
Fixpoint sort_insert {A : Type} (cmp : A -> A -> Z) (x : A) (l : list A)
  : list A :=
  match l with
  | [] => [x]
  | y :: l' => if 0 <? cmp x y then y :: sort_insert cmp x l' else x :: l
  end.

Definition Array_sort {A : Type} (cmp : A -> A -> Z) (l : list A) : list A :=
  fold_right (sort_insert cmp) [] l.

(** [n.toString()] for an integer [n]: its decimal numeral. This is what
    JavaScript prints for the safe integers (magnitude below 2^53, see
    [safe_integer]); beyond them a number is printed with its shortest
    round-trip digits, and from 10^21 on in exponent notation, which is not
    modelled. *)
Definition Number_toString (n : Z) : string :=
  NilZero.string_of_int (Z.to_int n).

(** ASCII lower-casing, the instance of [toLowerCase] used in examples. *)
Definition ascii_lower (c : ascii) : ascii :=
  let n := nat_of_ascii c in
  if (Nat.leb 65 n && Nat.leb n 90)%bool then ascii_of_nat (n + 32) else c.

Fixpoint ascii_toLowerCase (s : string) : string :=
  match s with
  | EmptyString => EmptyString
  | String c s' => String (ascii_lower c) (ascii_toLowerCase s')
  end.

(** JSON values, as produced by [JSON.parse] and [response.json()].
    Numbers are restricted to integers. An object is the list of its own
    properties in enumeration order. *)
#[warnings="-register-all"] Inductive JSValue :=
| JNull
| JBool (b : bool)
| JNum (n : Z)
| JStr (s : string)
| JArr (elements : list JSValue)
| JObj (properties : list (string * JSValue)).

(** [String(value)] for a value that [String] can convert. An array is
    joined with commas, [null] elements giving the empty string; an object
    prints as ["[object Object]"]. The conversion that fails on an object
    with an own [toString] property is [ToString] below. *)
Fixpoint String_ (v : JSValue) : string :=
  match v with
  | JNull => "null"
  | JBool true => "true"
  | JBool false => "false"
  | JNum n => Number_toString n
  | JStr s => s
  | JArr elements =>
      (fix join (l : list JSValue) : string :=
         match l with
         | [] => ""
         | x :: l' =>
             let sx := match x with JNull => "" | _ => String_ x end in
             match l' with
             | [] => sx
             | _ :: _ => sx ++ "," ++ join l'
             end
         end) elements
  | JObj _ => "[object Object]"
  end%string.

(** Truthiness of a JSON value. *)
Definition truthy_value (v : JSValue) : bool :=
  match v with
  | JNull => false
  | JBool b => b
  | JNum n => negb (n =? 0)
  | JStr s => negb (s =? "")%string
  | JArr _ | JObj _ => true
  end.

Fixpoint indexed {A : Type} (i : nat) (l : list A) : list (string * A) :=
  match l with
  | [] => []
  | x :: l' => (Number_toString (Z.of_nat i), x) :: indexed (S i) l'
  end.

Fixpoint chars (s : string) : list JSValue :=
  match s with
  | EmptyString => []
  | String c s' => JStr (String c EmptyString) :: chars s'
  end.

(** [Object.entries(v)]: the properties of an object, the indexed elements
    of an array, the indexed characters of a string, nothing otherwise. *)
Definition Object_entries (v : JSValue) : list (string * JSValue) :=
  match v with
  | JObj properties => properties
  | JArr elements => indexed 0 elements
  | JStr s => indexed 0 (chars s)
  | JNull | JBool _ | JNum _ => []
  end.

End JS.

(** ** Data model ([interface Dataset], [interface DatasetsIndex]) *)

Record Dataset := mkDataset {
  id : string;
  name : string;
  description : string;
  category : option string;
  keywords : option (list string)
}.

Record DatasetsIndex := mkIndex {
  opendosm : list Dataset;
  data_catalogue : list Dataset
}.

(** [Dataset & { source: string }], built by [{ ...d, source: "..." }]. *)
Record TaggedDataset := tag {
  dataset : Dataset;
  source : string
}.

(** The result objects of [list_datasets] and [search_datasets]. *)
Record ListResult := mkListResult {
  lr_total : Z;
  lr_limit : Z;
  lr_offset : Z;
  lr_count : Z;
  lr_datasets : list TaggedDataset
}.

Record SearchResult := mkSearchResult {
  sr_query : string;
  sr_count : Z;
  sr_datasets : list TaggedDataset
}.

(** ** The index tools: [list_datasets] and [search_datasets] *)

Section IndexTools.

Variable toLowerCase : string -> string.
Variable DATASETS_INDEX : DatasetsIndex.

(** [!source || source === key], the guard of each "collect" branch. *)
Definition selects (src : option string) (key : string) : bool :=
  negb (JS.truthy src) ||
  match src with
  | Some s => (s =? key)%string
  | None => false
  end.

(** "Collect datasets from specified sources": the two [if] statements that
    push the tagged records of each selected source. *)
Definition collect (src : option string) : list TaggedDataset :=
  let datasets := [] in
  let datasets :=
    if selects src "opendosm"
    then datasets ++ map (fun d => tag d "opendosm") (opendosm DATASETS_INDEX)
    else datasets in
  let datasets :=
    if selects src "data_catalogue"
    then datasets ++
         map (fun d => tag d "data_catalogue") (data_catalogue DATASETS_INDEX)
    else datasets in
  datasets.

(** [d.category?.toLowerCase() === category.toLowerCase()] *)
Definition category_matches (cat : string) (d : TaggedDataset) : bool :=
  match category (dataset d) with
  | None => false
  | Some c => (toLowerCase c =? toLowerCase cat)%string
  end.

Definition list_datasets (src cat : option string) (limit offset : option Z)
  : ListResult :=
  let limit := match limit with Some n => n | None => 100 end in
  let offset := match offset with Some n => n | None => 0 end in
  let datasets := collect src in
  let datasets :=
    if JS.truthy cat
    then match cat with
         | Some c => filter (category_matches c) datasets
         | None => datasets
         end
    else datasets in
  let total := Z.of_nat (List.length datasets) in
  let paginatedDatasets := JS.slice offset (offset + limit) datasets in
  mkListResult total limit offset
    (Z.of_nat (List.length paginatedDatasets)) paginatedDatasets.

(** The body of the scoring loop, for one dataset. *)
Definition keyword_step (queryLower : string) (score : Z) (keyword : string)
  : Z :=
  if (queryLower =? toLowerCase keyword)%string then score + 40
  else if JS.includes (toLowerCase keyword) queryLower then score + 20
  else score.

Definition score_of (queryLower : string) (d : TaggedDataset) : Z :=
  let d := dataset d in
  let score := 0 in
  let score :=
    if (queryLower =? toLowerCase (id d))%string then score + 100
    else if JS.includes (toLowerCase (id d)) queryLower then score + 50
    else score in
  let score :=
    if JS.includes (toLowerCase (name d)) queryLower then score + 30
    else score in
  let score :=
    if JS.includes (toLowerCase (description d)) queryLower then score + 10
    else score in
  fold_left (keyword_step queryLower)
    (match keywords d with Some ks => ks | None => [] end) score.

(** [for (const dataset of datasets) { ...; if (score > 0) push }] *)
Definition scoredDatasets (queryLower : string) (datasets : list TaggedDataset)
  : list (Z * TaggedDataset) :=
  fold_left
    (fun scored d =>
       let score := score_of queryLower d in
       if 0 <? score then scored ++ [(score, d)] else scored)
    datasets [].

(** The comparator [(a, b) => b[0] - a[0]]. *)
Definition by_score_desc (a b : Z * TaggedDataset) : Z := fst b - fst a.

Definition search_datasets (query : string) (src : option string)
  (limit : option Z) : SearchResult :=
  let limit := match limit with Some n => n | None => 10 end in
  let queryLower := toLowerCase query in
  let datasets := collect src in
  let scored := scoredDatasets queryLower datasets in
  let scored := JS.Array_sort by_score_desc scored in
  let results := map snd (JS.slice 0 limit scored) in
  mkSearchResult query (Z.of_nat (List.length results)) results.

End IndexTools.

(** ** The API client ([class DataGovMyClient]) *)

Module Client.

Import JS.

Definition OPENDOSM_BASE_URL := "https://api.data.gov.my/opendosm".
Definition DATA_CATALOGUE_BASE_URL := "https://api.data.gov.my/data-catalogue".

Record QueryOptions := mkOptions {
  filters : option JSValue;
  limit : option Z;
  offset : option Z;
  metaOnly : option bool
}.

(** [URLSearchParams] as the ordered list of its (name, value) entries;
    [params.toString()] serialises exactly these entries. *)
Definition URLSearchParams := list (string * string).

Record Request := mkRequest {
  url_base : string;
  url_params : URLSearchParams;
  accept : string
}.

(** What [response.json()] gives: the parsed body, or the message of the
    error it rejects with when the body is not JSON. *)
Record Response := mkResponse {
  status : Z;
  statusText : string;
  json : string + JSValue
}.

(** [response.ok]: the status lies in the range 200-299. *)
Definition ok (r : Response) : bool :=
  (200 <=? status r) && (status r <=? 299).

(** [fetch] either rejects (network failure, abort) or yields a response.
    The upstream may answer each request differently, so the world is a
    function of the requests issued so far. *)
Inductive FetchOutcome :=
| Rejected (message : string)
| Fulfilled (response : Response).

Definition World := list Request -> Request -> FetchOutcome.

(** Asynchronous computations that may throw: the world is read, the log of
    issued requests is threaded, and a thrown [Error] is its message. *)
Definition Async (A : Type) : Type :=
  World -> list Request -> (string + A) * list Request.

Definition ret {A : Type} (a : A) : Async A :=
  fun _ log => (inr a, log).

Definition throw {A : Type} (message : string) : Async A :=
  fun _ log => (inl message, log).

Definition bind {A B : Type} (m : Async A) (k : A -> Async B) : Async B :=
  fun w log =>
    match m w log with
    | (inl e, log') => (inl e, log')
    | (inr a, log') => k a w log'
    end.

Definition fetch (rq : Request) : Async Response :=
  fun w log =>
    match w log rq with
    | Rejected message => (inl message, log ++ [rq])
    | Fulfilled response => (inr response, log ++ [rq])
    end.

Notation "x <- m ;; k" := (bind m (fun x => k))
  (at level 61, m at next level, right associativity).

(** The parameter list built by both query methods (lines 28-43 and 70-85
    of client.ts are identical), for filter values that [String(value)] can
    convert; [build_params_or_throw] below adds the TypeError of the
    others. *)
Definition build_params (datasetId : string) (options : QueryOptions)
  : URLSearchParams :=
  let limit := match limit options with Some n => n | None => 100 end in
  let offset := match offset options with Some n => n | None => 0 end in
  let metaOnly := match metaOnly options with Some b => b | None => false end in
  let params := [("id", datasetId)] in
  let params :=
    if metaOnly then params ++ [("meta_only", "true")]
    else (params ++ [("limit", Number_toString limit)])
           ++ [("offset", Number_toString offset)] in
  match filters options with
  | Some fs =>
      if truthy_value fs
      then fold_left
             (fun params kv => params ++ [(fst kv, String_ (snd kv))])
             (Object_entries fs) params
      else params
  | None => params
  end.

(** The rest of a query method: one [fetch], the [response.ok] test, and
    [response.json()]. [label] is the prefix of the error message. *)
Definition query (base label : string) (datasetId : string)
  (options : QueryOptions) : Async JSValue :=
  let params := build_params datasetId options in
  response <- fetch (mkRequest base params "application/json") ;;
  if negb (ok response)
  then throw (label ++ " API error: " ++ Number_toString (status response)
                ++ " " ++ statusText response)%string
  else match json response with
       | inl message => throw message
       | inr body => ret body
       end.

Definition queryOpenDOSM := query OPENDOSM_BASE_URL "OpenDOSM".

Definition queryDataCatalogue := query DATA_CATALOGUE_BASE_URL "Data Catalogue".

End Client.

(** ** Conversions that can fail *)

(** [Number.isSafeInteger]. *)
Definition safe_integer (n : Z) : bool := Z.abs n <? 2 ^ 53.

(** The message of the TypeError of [String(value)]. *)
Definition cannot_convert : string :=
  "Cannot convert object to primitive value".

(** [String(value)] as ECMA-262 defines it. For an object it calls the
    [toString] method: a parsed JSON object that has an own property
    [toString] has no callable one (and the inherited [valueOf] returns the
    object itself), so the conversion throws a TypeError ([inl]); any other
    object prints as ["[object Object]"]. An array converts its elements in
    order, so the first element that cannot be converted throws. *)
Fixpoint ToString (v : JS.JSValue) : string + string :=
  match v with
  | JS.JNull => inr "null"
  | JS.JBool true => inr "true"
  | JS.JBool false => inr "false"
  | JS.JNum n => inr (JS.Number_toString n)
  | JS.JStr s => inr s
  | JS.JArr elements =>
      (fix join (l : list JS.JSValue) : string + string :=
         match l with
         | [] => inr ""
         | x :: l' =>
             match match x with JS.JNull => inr "" | _ => ToString x end with
             | inl e => inl e
             | inr sx =>
                 match l' with
                 | [] => inr sx
                 | _ :: _ =>
                     match join l' with
                     | inl e => inl e
                     | inr rest => inr (sx ++ "," ++ rest)
                     end
                 end
             end
         end) elements
  | JS.JObj properties =>
      if existsb (fun kv => (fst kv =? "toString")%string) properties
      then inl cannot_convert
      else inr "[object Object]"
  end%string.

(** The joins of [JS.String_] and of [ToString] on their own. *)
Definition element_string (f : JS.JSValue -> string) (x : JS.JSValue)
  : string :=
  match x with
  | JS.JNull => ""%string
  | _ => f x
  end.

Fixpoint join_strings (f : JS.JSValue -> string) (l : list JS.JSValue)
  : string :=
  match l with
  | [] => ""
  | x :: l' =>
      match l' with
      | [] => element_string f x
      | _ :: _ => element_string f x ++ "," ++ join_strings f l'
      end
  end%string.

Definition element_or_throw (f : JS.JSValue -> string + string)
  (x : JS.JSValue) : string + string :=
  match x with
  | JS.JNull => inr ""%string
  | _ => f x
  end.

Fixpoint join_or_throw (f : JS.JSValue -> string + string)
  (l : list JS.JSValue) : string + string :=
  match l with
  | [] => inr ""%string
  | x :: l' =>
      match element_or_throw f x with
      | inl e => inl e
      | inr sx =>
          match l' with
          | [] => inr sx
          | _ :: _ =>
              match join_or_throw f l' with
              | inl e => inl e
              | inr rest => inr (sx ++ "," ++ rest)%string
              end
          end
      end
  end.

(** The numbers that [String(value)] prints are safe integers. *)
Fixpoint prints_safe_integers (v : JS.JSValue) : bool :=
  match v with
  | JS.JNum n => safe_integer n
  | JS.JArr elements =>
      (fix all (l : list JS.JSValue) : bool :=
         match l with
         | [] => true
         | x :: l' => prints_safe_integers x && all l'
         end) elements
  | JS.JNull | JS.JBool _ | JS.JStr _ | JS.JObj _ => true
  end.

(** The parameter list as the client builds it, with the TypeError that
    [String(value)] throws inside the [forEach] over the filter entries: the
    loop stops there and nothing is built. *)
Definition build_params_or_throw (datasetId : string)
  (options : Client.QueryOptions) : string + Client.URLSearchParams :=
  let limit := match Client.limit options with Some n => n | None => 100 end in
  let offset :=
    match Client.offset options with Some n => n | None => 0 end in
  let metaOnly :=
    match Client.metaOnly options with Some b => b | None => false end in
  let params := [("id", datasetId)] in
  let params :=
    if metaOnly then params ++ [("meta_only", "true")]
    else (params ++ [("limit", JS.Number_toString limit)])
           ++ [("offset", JS.Number_toString offset)] in
  match Client.filters options with
  | Some fs =>
      if JS.truthy_value fs
      then fold_left
             (fun params kv =>
                match params with
                | inl e => inl e
                | inr params =>
                    match ToString (snd kv) with
                    | inl e => inl e
                    | inr value => inr (params ++ [(fst kv, value)])
                    end
                end)
             (JS.Object_entries fs) (inr params)
      else inr params
  | None => inr params
  end.

(** ** The tool handler ([CallToolRequestSchema]) *)

(** The [arguments] object of a tool call, read through the interfaces
    [QueryToolArgs], [MetadataToolArgs], [ListDatasetsArgs] and
    [SearchDatasetsArgs]. [source] is a string at run time, whatever the
    interface promises. The record describes a call that has an [arguments]
    member with a string [dataset_id] and a string [query]; a request
    without [arguments] is [call_tool_request] below. *)
Record ToolArgs := mkArgs {
  arg_dataset_id : string;
  arg_filters : option string;
  arg_limit : option Z;
  arg_offset : option Z;
  arg_source : option string;
  arg_category : option string;
  arg_query : string
}.

(** [datasetInfo || { id: dataset_id, name: "Unknown" }] *)
Inductive DatasetInfo :=
| IndexRecord (d : Dataset)
| Placeholder (id name : string).

Record SchemaResult := mkSchemaResult {
  sc_dataset_id : string;
  sc_source : option string;
  sc_info : DatasetInfo;
  sc_metadata : JS.JSValue;
  sc_sample_data : JS.JSValue
}.

(** The value whose JSON text becomes the [content] of the tool result. *)
Inductive ToolPayload :=
| Data (data : JS.JSValue)
| Listing (result : ListResult)
| Matches (result : SearchResult)
| Schema (result : SchemaResult)
| Failure (error tool : string) (arguments : ToolArgs).

(** The tool result; [isError] absent in the source is [false] here. *)
Record ToolResult := mkToolResult {
  content : ToolPayload;
  isError : bool
}.

Section Server.

Import Client.

Variable toLowerCase : string -> string.
Variable DATASETS_INDEX : DatasetsIndex.

(** [JSON.parse]: the parsed value, or the message of the [SyntaxError]. *)
Variable JSON_parse : string -> string + JS.JSValue.

Definition invalid_source : string :=
  "Invalid source. Must be 'opendosm' or 'data_catalogue'".

(** [filters ? JSON.parse(filters) : undefined] *)
Definition parse_filters (filters : option string)
  : Async (option JS.JSValue) :=
  match filters with
  | Some text =>
      if JS.truthy filters
      then match JSON_parse text with
           | inl message => throw message
           | inr v => ret (Some v)
           end
      else ret None
  | None => ret None
  end.

Definition source_is (src : option string) (key : string) : bool :=
  match src with
  | Some s => (s =? key)%string
  | None => false
  end.

(** [DATASETS_INDEX[sourceKey]?.find((ds) => ds.id === dataset_id)] *)
Definition find_info (src : option string) (dataset_id : string)
  : option Dataset :=
  let sourceKey :=
    if source_is src "opendosm" then opendosm else data_catalogue in
  find (fun ds => (id ds =? dataset_id)%string) (sourceKey DATASETS_INDEX).

(** The [switch (name)] inside the [try] block. *)
Definition handle (name : string) (args : ToolArgs) : Async ToolPayload :=
  let dataset_id := arg_dataset_id args in
  let source := arg_source args in
  if (name =? "query_opendosm")%string then
    let limit := match arg_limit args with Some n => n | None => 100 end in
    let offset := match arg_offset args with Some n => n | None => 0 end in
    filterDict <- parse_filters (arg_filters args) ;;
    data <- queryOpenDOSM dataset_id
              (mkOptions filterDict (Some limit) (Some offset) None) ;;
    ret (Data data)
  else if (name =? "query_data_catalogue")%string then
    let limit := match arg_limit args with Some n => n | None => 100 end in
    let offset := match arg_offset args with Some n => n | None => 0 end in
    filterDict <- parse_filters (arg_filters args) ;;
    data <- queryDataCatalogue dataset_id
              (mkOptions filterDict (Some limit) (Some offset) None) ;;
    ret (Data data)
  else if (name =? "get_dataset_metadata")%string then
    data <- (if source_is source "opendosm" then
               queryOpenDOSM dataset_id (mkOptions None None None (Some true))
             else if source_is source "data_catalogue" then
               queryDataCatalogue dataset_id
                 (mkOptions None None None (Some true))
             else throw invalid_source) ;;
    ret (Data data)
  else if (name =? "list_datasets")%string then
    ret (Listing (list_datasets toLowerCase DATASETS_INDEX source
                    (arg_category args) (arg_limit args) (arg_offset args)))
  else if (name =? "search_datasets")%string then
    ret (Matches (search_datasets toLowerCase DATASETS_INDEX (arg_query args)
                    source (arg_limit args)))
  else if (name =? "get_dataset_schema")%string then
    let datasetInfo := find_info source dataset_id in
    metadata <- (if source_is source "opendosm" then
                   queryOpenDOSM dataset_id
                     (mkOptions None None None (Some true))
                 else if source_is source "data_catalogue" then
                   queryDataCatalogue dataset_id
                     (mkOptions None None None (Some true))
                 else throw invalid_source) ;;
    sampleData <- (if source_is source "opendosm" then
                     queryOpenDOSM dataset_id
                       (mkOptions None (Some 3) None None)
                   else
                     queryDataCatalogue dataset_id
                       (mkOptions None (Some 3) None None)) ;;
    ret (Schema (mkSchemaResult dataset_id source
                   (match datasetInfo with
                    | Some d => IndexRecord d
                    | None => Placeholder dataset_id "Unknown"
                    end)
                   metadata sampleData))
  else throw ("Unknown tool: " ++ name)%string.

(** The handler: the [try] block and its [catch]. *)
Definition call_tool (name : string) (args : ToolArgs) (w : World)
  (log : list Request) : ToolResult * list Request :=
  match handle name args w log with
  | (inr payload, log') => (mkToolResult payload false, log')
  | (inl errorMessage, log') =>
      (mkToolResult (Failure errorMessage name args) true, log')
  end.

End Server.

(** A request whose [arguments] member is absent: the destructuring
    [const { ... } = args] at the head of each case throws a TypeError, whose
    message (given by the engine, here a parameter) names the first property
    of the pattern; the [catch] reports it with [arguments] undefined. The
    [default] case does not look at [args]. The result is the tool result of
    [call_tool], or the pair [(error, tool)] of this error result. *)
Definition first_property (name : string) : option string :=
  if (name =? "query_opendosm")%string then Some "dataset_id"
  else if (name =? "query_data_catalogue")%string then Some "dataset_id"
  else if (name =? "get_dataset_metadata")%string then Some "dataset_id"
  else if (name =? "list_datasets")%string then Some "source"
  else if (name =? "search_datasets")%string then Some "query"
  else if (name =? "get_dataset_schema")%string then Some "dataset_id"
  else None.

Definition call_tool_request (toLowerCase : string -> string)
  (DATASETS_INDEX : DatasetsIndex)
  (JSON_parse : string -> string + JS.JSValue)
  (cannot_destructure : string -> string)
  (name : string) (arguments : option ToolArgs)
  (w : Client.World) (log : list Client.Request)
  : (ToolResult + string * string) * list Client.Request :=
  match arguments with
  | Some args =>
      (inl (fst (call_tool toLowerCase DATASETS_INDEX JSON_parse name args
                   w log)),
       snd (call_tool toLowerCase DATASETS_INDEX JSON_parse name args w log))
  | None =>
      (inr (match first_property name with
            | Some property => cannot_destructure property
            | None => ("Unknown tool: " ++ name)%string
            end, name),
       log)
  end.

(** ** Reference definitions, following the specification *)

Section Reference.

Variable toLowerCase : string -> string.

(** Case-insensitive comparison of a field with the query. *)
Definition ci_equal (field query : string) : bool :=
  (toLowerCase field =? toLowerCase query)%string.

Definition ci_contains (field query : string) : bool :=
  JS.includes (toLowerCase field) (toLowerCase query).

(** "id exactly equals query: +100; else id contains query: +50" *)
Definition id_points (query : string) (d : Dataset) : Z :=
  if ci_equal (id d) query then 100
  else if ci_contains (id d) query then 50 else 0.

(** "name contains query: +30" *)
Definition name_points (query : string) (d : Dataset) : Z :=
  if ci_contains (name d) query then 30 else 0.

(** "description contains query: +10" *)
Definition description_points (query : string) (d : Dataset) : Z :=
  if ci_contains (description d) query then 10 else 0.

(** "for each keyword: exact match +40; else substring match +20" *)
Definition keyword_points (query keyword : string) : Z :=
  if ci_equal keyword query then 40
  else if ci_contains keyword query then 20 else 0.

Definition sumZ (l : list Z) : Z := fold_right Z.add 0 l.

Definition keywords_points (query : string) (d : Dataset) : Z :=
  match keywords d with
  | Some ks => sumZ (map (keyword_points query) ks)
  | None => 0
  end.

(** What the clauses other than the id clause contribute. *)
Definition other_points (query : string) (d : Dataset) : Z :=
  name_points query d + description_points query d + keywords_points query d.

Definition score_spec (query : string) (d : Dataset) : Z :=
  id_points query d + other_points query d.

(** The id of the record equals the query / merely contains it. *)
Definition exact_id (query : string) (d : Dataset) : Prop :=
  ci_equal (id d) query = true.

Definition partial_id (query : string) (d : Dataset) : Prop :=
  ci_equal (id d) query = false /\ ci_contains (id d) query = true.

(** The score of a tagged record, and the candidates that score above 0
    (the records the search does not exclude). *)
Definition points (query : string) (d : TaggedDataset) : Z :=
  score_spec query (dataset d).

Definition matching (query : string) (candidates : list TaggedDataset)
  : list TaggedDataset :=
  filter (fun d => 0 <? points query d) candidates.

End Reference.

(** Order within a sequence: [x] occurs somewhere before [y]. *)
Definition ranks_before {A : Type} (x y : A) (l : list A) : Prop :=
  exists l1 l2 l3, l = l1 ++ x :: l2 ++ y :: l3.

Definition prefix_of {A : Type} (p l : list A) : Prop :=
  exists rest, l = p ++ rest.

(** Sorting by a key, largest first. *)
Definition by_key_desc {A : Type} (key : A -> Z) (a b : A) : Z :=
  key b - key a.

Definition has_key {A : Type} (key : A -> Z) (k : Z) (x : A) : bool :=
  key x =? k.

Definition descending {A : Type} (key : A -> Z) (l : list A) : Prop :=
  StronglySorted (fun a b => key b <= key a) l.

(** [l'] lists the elements of [l], and those of equal key in the order
    they have in [l]. *)
Definition same_key_order {A : Type} (key : A -> Z) (l l' : list A) : Prop :=
  forall k, filter (has_key key k) l' = filter (has_key key k) l.

Definition stable_sort_of {A : Type} (key : A -> Z) (l l' : list A) : Prop :=
  descending key l' /\ same_key_order key l l'.

(** An optional number with its default ([limit = 10] and the like). *)
Definition or_default (o : option Z) (default : Z) : Z :=
  match o with
  | Some n => n
  | None => default
  end.

(** "keeps only records whose category case-insensitively equals it
    (records with no category are dropped by a filter)" *)
Definition category_ci_equal (toLowerCase : string -> string)
  (categoryFilter : string) (d : TaggedDataset) : bool :=
  match category (dataset d) with
  | Some c => ci_equal toLowerCase c categoryFilter
  | None => false
  end.

(** The category filter in effect: [if (category)] takes the empty string
    for an absent filter. *)
Definition effective_filter (categoryFilter : option string)
  : option string :=
  match categoryFilter with
  | Some c => if (c =? "")%string then None else Some c
  | None => None
  end.

(** The filters whose entries [String(value)] can convert, with safe
    integers for the numbers it prints. *)
Definition convertible (filters : option JS.JSValue) : bool :=
  match filters with
  | Some fs =>
      if JS.truthy_value fs
      then forallb
             (fun kv =>
                prints_safe_integers (snd kv)
                && match ToString (snd kv) with
                   | inr _ => true
                   | inl _ => false
                   end)
             (JS.Object_entries fs)
      else true
  | None => true
  end.

(** Two tool results that differ at most in the arguments echoed by an
    error result. *)
Definition same_outcome (r1 r2 : ToolResult) : Prop :=
  isError r1 = isError r2
  /\ match content r1, content r2 with
     | Failure e1 t1 _, Failure e2 t2 _ => e1 = e2 /\ t1 = t2
     | p1, p2 => p1 = p2
     end.

Definition kept_by_category (toLowerCase : string -> string)
  (categoryFilter : option string) (l : list TaggedDataset)
  : list TaggedDataset :=
  match categoryFilter with
  | Some c => filter (category_ci_equal toLowerCase c) l
  | None => l
  end.


(** The two upstream APIs, with the client method, base URL, error label
    and [source] value of each. *)
Inductive Upstream := OpenDOSM | DataCatalogue.

Definition query_method (u : Upstream) :=
  match u with
  | OpenDOSM => Client.queryOpenDOSM
  | DataCatalogue => Client.queryDataCatalogue
  end.

Definition base_url (u : Upstream) : string :=
  match u with
  | OpenDOSM => "https://api.data.gov.my/opendosm"
  | DataCatalogue => "https://api.data.gov.my/data-catalogue"
  end.


Definition source_name (u : Upstream) : string :=
  match u with
  | OpenDOSM => "opendosm"
  | DataCatalogue => "data_catalogue"
  end.

Definition records_of (u : Upstream) (index : DatasetsIndex) : list Dataset :=
  match u with
  | OpenDOSM => opendosm index
  | DataCatalogue => data_catalogue index
  end.

(** "Appends each filter key/value pair as an additional query parameter,
    values stringified." *)
Definition filter_params (filters : option JS.JSValue)
  : Client.URLSearchParams :=
  match filters with
  | Some fs =>
      if JS.truthy_value fs
      then map (fun kv => (fst kv, JS.String_ (snd kv))) (JS.Object_entries fs)
      else []
  | None => []
  end.

(** The six tools of the handler. *)
Definition tool_names : list string :=
  ["query_opendosm"; "query_data_catalogue"; "get_dataset_metadata";
   "list_datasets"; "search_datasets"; "get_dataset_schema"].

Definition known_tool (name : string) : bool :=
  existsb (String.eqb name) tool_names.

(** The lower-cased query occurs in the lower-cased field. *)
Definition occurs_in (toLowerCase : string -> string) (query field : string)
  : Prop :=
  exists a b, toLowerCase field = (a ++ toLowerCase query ++ b)%string.

(** The record carries the given source tag. *)
Definition tagged (s : string) (d : TaggedDataset) : bool :=
  (source d =? s)%string.

(** ** Example data *)

Module Examples.

Definition gdp : Dataset :=
  mkDataset "gdp" "Gross Domestic Product" "National accounts" None None.

Definition gdp_qtr : Dataset :=
  mkDataset "gdp_qtr" "Quarterly GDP" "GDP by quarter" (Some "Economy")
    (Some ["gdp"; "quarterly gdp"]).

Definition gdp_only_id : Dataset := mkDataset "gdp" "" "" None None.

Definition gdp_qtr_only_id : Dataset := mkDataset "gdp_qtr" "" "" None None.

Definition cpi_core : Dataset :=
  mkDataset "cpi_core" "Core CPI" "" (Some "Prices") (Some ["inflation"]).

Definition fuelprice : Dataset :=
  mkDataset "fuelprice" "Fuel prices" "Weekly retail fuel prices"
    (Some "Prices") (Some ["fuel"; "inflation"]).

Definition gdp_index : DatasetsIndex := mkIndex [gdp; gdp_qtr] [].

Definition id_only_index : DatasetsIndex :=
  mkIndex [gdp_qtr_only_id; gdp_only_id] [].

Definition mixed_index : DatasetsIndex :=
  mkIndex [cpi_core; gdp] [fuelprice].

Definition no_args : ToolArgs :=
  mkArgs "fuelprice" None None None None None "".

Definition schema_args : ToolArgs :=
  mkArgs "fuelprice" None None None (Some "data_catalogue") None "".

Definition not_found : Client.Response :=
  Client.mkResponse 404 "Not Found" (inl "Unexpected token").

Definition found (body : JS.JSValue) : Client.Response :=
  Client.mkResponse 200 "OK" (inr body).

(** An upstream that answers a [meta_only] request with [metadata] and any
    other request with [rows]. *)
Definition upstream (metadata rows : JS.JSValue) : Client.World :=
  fun _ rq =>
    if existsb (fun kv => (fst kv =? "meta_only")%string) (Client.url_params rq)
    then Client.Fulfilled (found metadata)
    else Client.Fulfilled (found rows).

Definition failing_upstream : Client.World :=
  fun _ _ => Client.Fulfilled not_found.

(** A [JSON.parse] that only knows the filter used in the examples. *)
Definition parse_example (text : string) : string + JS.JSValue :=
  if (text =? "{}")%string then inr (JS.JObj [])
  else inl "Unexpected token".

End Examples.

(** What a request of the handler looks like: a request to one of the two
    base URLs that accepts JSON and whose first parameter is the id. *)
Definition upstream_request (dataset_id : string) (rq : Client.Request)
  : Prop :=
  (Client.url_base rq = Client.OPENDOSM_BASE_URL
   \/ Client.url_base rq = Client.DATA_CATALOGUE_BASE_URL)
  /\ Client.accept rq = "application/json"%string
  /\ hd_error (Client.url_params rq) = Some ("id"%string, dataset_id).

(** ** The tool table ([ListToolsRequestSchema]) *)

(** One entry of [inputSchema.properties]: name, type, declared default and
    enumeration (the free-text descriptions of the properties are left
    out). *)
Record ToolProperty := mkProperty {
  prop_name : string;
  prop_type : string;
  prop_default : option Z;
  prop_enum : list string
}.

Record Tool := mkTool {
  tool_name : string;
  tool_description : string;
  tool_properties : list ToolProperty;
  tool_required : list string
}.

Definition list_tools : list Tool :=
  [ mkTool "query_opendosm"
      "Query an OpenDOSM dataset (Department of Statistics Malaysia)"
      [ mkProperty "dataset_id" "string" None [];
        mkProperty "filters" "string" None [];
        mkProperty "limit" "number" (Some 100) [];
        mkProperty "offset" "number" (Some 0) [] ]
      ["dataset_id"];
    mkTool "query_data_catalogue"
      "Query a Data Catalogue dataset (broader government data)"
      [ mkProperty "dataset_id" "string" None [];
        mkProperty "filters" "string" None [];
        mkProperty "limit" "number" (Some 100) [];
        mkProperty "offset" "number" (Some 0) [] ]
      ["dataset_id"];
    mkTool "get_dataset_metadata"
      "Get metadata for a dataset without fetching the actual data records"
      [ mkProperty "dataset_id" "string" None [];
        mkProperty "source" "string" None ["opendosm"; "data_catalogue"] ]
      ["dataset_id"; "source"];
    mkTool "list_datasets"
      "List all available datasets with optional filtering"
      [ mkProperty "source" "string" None ["opendosm"; "data_catalogue"];
        mkProperty "category" "string" None [];
        mkProperty "limit" "number" (Some 100) [];
        mkProperty "offset" "number" (Some 0) [] ]
      [];
    mkTool "search_datasets"
      "Search for datasets by keyword"
      [ mkProperty "query" "string" None [];
        mkProperty "source" "string" None ["opendosm"; "data_catalogue"];
        mkProperty "limit" "number" (Some 10) [] ]
      ["query"];
    mkTool "get_dataset_schema"
      "Get schema, metadata, and sample data for a dataset"
      [ mkProperty "dataset_id" "string" None [];
        mkProperty "source" "string" None ["opendosm"; "data_catalogue"] ]
      ["dataset_id"; "source"] ].

(** The default a tool declares for a numeric property, if any, and the
    arguments a caller gets by filling in the declared defaults. *)
Definition declared_default (t : Tool) (p : string) : option Z :=
  match find (fun q => (prop_name q =? p)%string) (tool_properties t) with
  | Some q => prop_default q
  | None => None
  end.

Definition with_declared_defaults (t : Tool) (args : ToolArgs) : ToolArgs :=
  mkArgs (arg_dataset_id args) (arg_filters args)
    match arg_limit args with
    | Some n => Some n
    | None => declared_default t "limit"
    end
    match arg_offset args with
    | Some n => Some n
    | None => declared_default t "offset"
    end
    (arg_source args) (arg_category args) (arg_query args).

(** ** The resources ([ListResourcesRequestSchema],
    [ReadResourceRequestSchema]) *)

Record Resource := mkResource {
  res_uri : string;
  res_name : string;
  res_description : string;
  res_mimeType : string
}.

Definition list_resources : list Resource :=
  [ mkResource "dataset://opendosm/all" "OpenDOSM Datasets"
      "List all OpenDOSM datasets" "text/markdown";
    mkResource "dataset://data-catalogue/all" "Data Catalogue Datasets"
      "List all Data Catalogue datasets" "text/markdown";
    mkResource "dataset://popular" "Popular Datasets"
      "List popular datasets from both sources" "text/markdown" ].

Record ResourceContents := mkContents {
  rc_uri : string;
  rc_mimeType : string;
  rc_text : string
}.

(** The line feed, and [l.join(sep)]. *)
Definition newline : string := String (ascii_of_nat 10) EmptyString.

Fixpoint Array_join (sep : string) (l : list string) : string :=
  match l with
  | [] => ""
  | x :: l' =>
      match l' with
      | [] => x
      | _ :: _ => x ++ sep ++ Array_join sep l'
      end
  end%string.

Section Resources.

Variable DATASETS_INDEX : DatasetsIndex.

(** The template of the two "all" listings. *)
Definition listing_line (d : Dataset) : string :=
  ("- **" ++ id d ++ "**: " ++ name d ++ " - " ++ description d)%string.

(** The [popular] array: the first 10 records of each source, pushed by the
    two [forEach] loops. *)
Definition popular_lines : list string :=
  let popular := [] in
  let popular :=
    fold_left
      (fun popular d =>
         popular ++ [("- **" ++ id d ++ "** (OpenDOSM): " ++ name d)%string])
      (JS.slice 0 10 (opendosm DATASETS_INDEX)) popular in
  let popular :=
    fold_left
      (fun popular d =>
         popular
         ++ [("- **" ++ id d ++ "** (Data Catalogue): " ++ name d)%string])
      (JS.slice 0 10 (data_catalogue DATASETS_INDEX)) popular in
  popular.

(** The [switch (uri)] of the read handler. It has no [catch]: the error for
    an unknown uri is thrown to the caller ([inl]). *)
Definition read_resource (uri : string) : string + list ResourceContents :=
  if (uri =? "dataset://opendosm/all")%string then
    let datasets :=
      Array_join newline (map listing_line (opendosm DATASETS_INDEX)) in
    inr [mkContents uri "text/markdown"
           ("# OpenDOSM Datasets" ++ newline ++ newline ++ datasets)%string]
  else if (uri =? "dataset://data-catalogue/all")%string then
    let datasets :=
      Array_join newline (map listing_line (data_catalogue DATASETS_INDEX)) in
    inr [mkContents uri "text/markdown"
           ("# Data Catalogue Datasets" ++ newline ++ newline
              ++ datasets)%string]
  else if (uri =? "dataset://popular")%string then
    inr [mkContents uri "text/markdown"
           ("# Popular Datasets" ++ newline ++ newline
              ++ Array_join newline popular_lines)%string]
  else inl ("Unknown resource: " ++ uri)%string.

End Resources.

(** ** The cancellation handle of the client ([abortController], [close]) *)

Module Controller.

(** The controllers are numbered in the order of their creation.
    [abortController] is the field of the client; [aborted] lists the
    controllers on which [abort()] has been called. *)
Record ClientState := mkClient {
  abortController : option nat;
  created : nat;
  aborted : list nat
}.

Definition initial : ClientState := mkClient None 0 [].

(** [this.abortController = new AbortController()], the statement both
    query methods run before [fetch]; the result is the new state and the
    controller whose signal the request uses. *)
Definition begin_request (c : ClientState) : ClientState * nat :=
  (mkClient (Some (created c)) (S (created c)) (aborted c), created c).

Definition close (c : ClientState) : ClientState :=
  match abortController c with
  | Some h => mkClient None (created c) (h :: aborted c)
  | None => c
  end.

Inductive Op := Query | Close.

Definition step (c : ClientState) (op : Op) : ClientState :=
  match op with
  | Query => fst (begin_request c)
  | Close => close c
  end.

Definition run (ops : list Op) (c : ClientState) : ClientState :=
  fold_left step ops c.

Definition is_close (op : Op) : bool :=
  match op with
  | Close => true
  | Query => false
  end.

(** The states the client can be in: the stored controller and the aborted
    ones have been created, the stored one is not aborted, and no controller
    is aborted twice. *)
Definition well_formed (c : ClientState) : Prop :=
  (forall h, abortController c = Some h ->
             (h < created c)%nat /\ ~ In h (aborted c))
  /\ (forall h, In h (aborted c) -> (h < created c)%nat)
  /\ NoDup (aborted c).

End Controller.

(** ** The launcher ([findPython], [startServer]) *)

Module Launcher.

(** [spawnSync(cmd, args).status] as a function of the command line; [None]
    is the [null] status of a command that could not be run. *)
Definition SpawnSync := list string -> option Z.

Definition exited_0 (status : option Z) : bool :=
  match status with
  | Some n => n =? 0
  | None => false
  end.

Definition no_python : string :=
  "Python 3 is required but not found. Please install Python 3.10 or newer.".

(** The [for] loop over [pythonCommands], returning at the first command
    whose [--version] exits with 0. *)
Fixpoint first_working (spawnSync : SpawnSync) (pythonCommands : list string)
  : string + string :=
  match pythonCommands with
  | [] => inl no_python
  | cmd :: rest =>
      if exited_0 (spawnSync [cmd; "--version"]) then inr cmd
      else first_working spawnSync rest
  end.

Definition findPython (spawnSync : SpawnSync) : string + string :=
  first_working spawnSync ["python3"; "python"].

(** The first thing the spawned server does, as its handlers see it: the
    [error] event when it cannot be started, the [exit] event with its exit
    code ([null] after a signal), or nothing while it keeps running. The
    SIGINT and SIGTERM handlers only pass the signal on to the server. *)
Inductive ServerEvent :=
| SpawnError
| ServerExit (code : option Z)
| StillRunning.

(** How the launcher ends: with the error of [findPython], with
    [process.exit(code)], or not yet, the server running under the given
    interpreter. *)
Inductive Launch :=
| Threw (message : string)
| Exited (code : Z)
| Serving (python : string).

(** [code || 0] *)
Definition code_or_0 (code : option Z) : Z :=
  match code with
  | Some c => if c =? 0 then 0 else c
  | None => 0
  end.

(** [server.on('error', ...)] and [server.on('exit', ...)]. *)
Definition on_event (python : string) (event : ServerEvent) : Launch :=
  match event with
  | SpawnError => Exited 1
  | ServerExit code => Exited (code_or_0 code)
  | StillRunning => Serving python
  end.

Definition server_command (python : string) : list string :=
  [python; "-m"; "datagovmy_mcp.server"].

(** The outcome, and the commands run after [findPython] ([spawnSync] for
    the import check and the installation, [spawn] for the server). *)
Definition startServer (spawnSync : SpawnSync) (event : ServerEvent)
  : Launch * list (list string) :=
  match findPython spawnSync with
  | inl message => (Threw message, [])
  | inr python =>
      let checkDeps := [python; "-c"; "import mcp"] in
      if negb (exited_0 (spawnSync checkDeps)) then
        let install := [python; "-m"; "pip"; "install"; "-e"; "."] in
        if negb (exited_0 (spawnSync install))
        then (Exited 1, [checkDeps; install])
        else (on_event python event,
              [checkDeps; install; server_command python])
      else (on_event python event, [checkDeps; server_command python])
  end.

End Launcher.

(** ** Facts about the built-ins *)

Section SortFacts.

Context {A : Type}.
Variable key : A -> Z.

Lemma sort_insert_in (x z : A) (l : list A) :
  In z (JS.sort_insert (by_key_desc key) x l) <-> z = x \/ In z l.
Proof.
  induction l as [|y l IH]; simpl.
  - intuition.
  - destruct (0 <? by_key_desc key x y); simpl.
    + rewrite IH. intuition.
    + intuition.
Qed.

Lemma sort_insert_descending (x : A) (l : list A) :
  descending key l -> descending key (JS.sort_insert (by_key_desc key) x l).
Proof.
  unfold descending.
  induction l as [|y l IH]; simpl; intros Hl.
  - constructor; constructor.
  - apply StronglySorted_inv in Hl as [Hl Hy].
    unfold by_key_desc at 1.
    destruct (0 <? key y - key x) eqn:E.
    + apply Z.ltb_lt in E.
      constructor; [now apply IH|].
      rewrite Forall_forall in *. intros z Hz.
      apply sort_insert_in in Hz as [->|Hz]; [lia|now apply Hy].
    + apply Z.ltb_ge in E.
      constructor; [now constructor|].
      constructor; [lia|].
      rewrite Forall_forall in *. intros z Hz.
      specialize (Hy z Hz). lia.
Qed.

Lemma sort_descending (l : list A) :
  descending key (JS.Array_sort (by_key_desc key) l).
Proof.
  induction l as [|x l IH]; simpl.
  - constructor.
  - now apply sort_insert_descending.
Qed.

(** An element only moves past elements of strictly larger key. *)
Lemma sort_insert_filter (k : Z) (x : A) (l : list A) :
  filter (has_key key k) (JS.sort_insert (by_key_desc key) x l)
  = filter (has_key key k) (x :: l).
Proof.
  induction l as [|y l IH]; [reflexivity|].
  cbn [JS.sort_insert]. unfold by_key_desc at 1.
  destruct (0 <? key y - key x) eqn:E; [|reflexivity].
  apply Z.ltb_lt in E.
  cbn [filter] in *. rewrite IH.
  unfold has_key.
  destruct (key x =? k) eqn:Ex; destruct (key y =? k) eqn:Ey;
    try reflexivity.
  apply Z.eqb_eq in Ex, Ey. lia.
Qed.

Lemma sort_same_key_order (l : list A) :
  same_key_order key l (JS.Array_sort (by_key_desc key) l).
Proof.
  intros k. induction l as [|x l IH]; [reflexivity|].
  cbn [JS.Array_sort fold_right].
  rewrite sort_insert_filter. cbn [filter].
  fold (JS.Array_sort (by_key_desc key) l). now rewrite IH.
Qed.

Lemma sort_stable (l : list A) :
  stable_sort_of key l (JS.Array_sort (by_key_desc key) l).
Proof. split; [apply sort_descending|apply sort_same_key_order]. Qed.

Lemma sort_in (z : A) (l : list A) :
  In z (JS.Array_sort (by_key_desc key) l) <-> In z l.
Proof.
  induction l as [|x l IH]; simpl; [tauto|].
  rewrite sort_insert_in.
  unfold JS.Array_sort in IH. rewrite IH. intuition.
Qed.

Lemma sort_length (l : list A) :
  List.length (JS.Array_sort (by_key_desc key) l) = List.length l.
Proof.
  induction l as [|x l IH]; [reflexivity|].
  cbn [JS.Array_sort fold_right List.length].
  fold (JS.Array_sort (by_key_desc key) l). rewrite <- IH.
  generalize (JS.Array_sort (by_key_desc key) l) as s.
  induction s as [|y s IHs]; [reflexivity|].
  cbn [JS.sort_insert].
  destruct (0 <? by_key_desc key x y); cbn [List.length]; congruence.
Qed.

(** A stable descending sort is unique, so the choice of the sorting
    algorithm in [JS.Array_sort] does not matter. *)
Lemma same_key_order_head (a b : A) (l1 l2 : list A) :
  descending key (a :: l1) -> descending key (b :: l2) ->
  (forall k, filter (has_key key k) (a :: l1)
             = filter (has_key key k) (b :: l2)) ->
  a = b.
Proof.
  intros H1 H2 H.
  apply StronglySorted_inv in H1 as [_ H1].
  apply StronglySorted_inv in H2 as [_ H2].
  rewrite Forall_forall in H1, H2.
  assert (Ha : In a (b :: l2)).
  { apply (proj1 (filter_In (has_key key (key a)) a (b :: l2))).
    rewrite <- H. cbn [filter].
    replace (has_key key (key a) a) with true
      by (symmetry; apply Z.eqb_refl).
    now left. }
  assert (Hb : In b (a :: l1)).
  { apply (proj1 (filter_In (has_key key (key b)) b (a :: l1))).
    rewrite H. cbn [filter].
    replace (has_key key (key b) b) with true
      by (symmetry; apply Z.eqb_refl).
    now left. }
  assert (Hk : key a = key b).
  { destruct Ha as [Ha|Ha]; [now subst|].
    destruct Hb as [Hb|Hb]; [now subst|].
    specialize (H1 _ Hb). specialize (H2 _ Ha). lia. }
  specialize (H (key a)). cbn [filter] in H.
  assert (Ea : has_key key (key a) a = true) by apply Z.eqb_refl.
  assert (Eb : has_key key (key a) b = true)
    by (unfold has_key; rewrite Hk; apply Z.eqb_refl).
  rewrite Ea, Eb in H. congruence.
Qed.

Lemma stable_sort_unique (l l1 l2 : list A) :
  stable_sort_of key l l1 -> stable_sort_of key l l2 -> l1 = l2.
Proof.
  intros [D1 S1] [D2 S2].
  assert (S : forall k, filter (has_key key k) l1 = filter (has_key key k) l2)
    by (intros k; now rewrite S1, S2).
  clear S1 S2 l. revert l2 D2 S.
  induction l1 as [|a l1 IH]; intros [|b l2] D2 S.
  - reflexivity.
  - specialize (S (key b)). cbn [filter] in S.
    replace (has_key key (key b) b) with true in S
      by (symmetry; apply Z.eqb_refl).
    discriminate.
  - specialize (S (key a)). cbn [filter] in S.
    replace (has_key key (key a) a) with true in S
      by (symmetry; apply Z.eqb_refl).
    discriminate.
  - assert (a = b) by (eapply same_key_order_head; eauto). subst b.
    f_equal. apply IH.
    + now apply StronglySorted_inv in D1.
    + now apply StronglySorted_inv in D2.
    + intros k. specialize (S k). cbn [filter] in S.
      destruct (has_key key k a); congruence.
Qed.

End SortFacts.

Section ListFacts.

Context {A : Type}.

Lemma slice_from_0 (fin : Z) (l : list A) :
  JS.slice 0 fin l
  = firstn (Z.to_nat (if fin <? 0
                      then Z.max (Z.of_nat (List.length l) + fin) 0
                      else Z.min fin (Z.of_nat (List.length l)))) l.
Proof.
  unfold JS.slice. cbn [Z.ltb Z.compare].
  rewrite (Z.min_l 0) by lia. rewrite Z.sub_0_r. reflexivity.
Qed.

Lemma firstn_prefix (n : nat) (l : list A) : prefix_of (firstn n l) l.
Proof. exists (skipn n l). symmetry. apply firstn_skipn. Qed.

Lemma slice_from_0_prefix (fin : Z) (l : list A) :
  prefix_of (JS.slice 0 fin l) l.
Proof. rewrite slice_from_0. apply firstn_prefix. Qed.

Lemma slice_from_0_nonneg (fin : Z) (l : list A) :
  0 <= fin -> JS.slice 0 fin l = firstn (Z.to_nat fin) l.
Proof.
  intros H. rewrite slice_from_0.
  destruct (fin <? 0) eqn:E; [apply Z.ltb_lt in E; lia|].
  destruct (Z.le_ge_cases fin (Z.of_nat (List.length l))).
  - now rewrite Z.min_l.
  - rewrite Z.min_r by trivial. rewrite Nat2Z.id.
    rewrite !firstn_all2; trivial; lia.
Qed.

(** For non-negative arguments [slice] is the window [start, start+count). *)
Lemma slice_window (start count : Z) (l : list A) :
  0 <= start -> 0 <= count ->
  JS.slice start (start + count) l
  = firstn (Z.to_nat count) (skipn (Z.to_nat start) l).
Proof.
  intros Hs Hc. unfold JS.slice.
  destruct (start <? 0) eqn:E1; [apply Z.ltb_lt in E1; lia|].
  destruct (start + count <? 0) eqn:E2; [apply Z.ltb_lt in E2; lia|].
  set (len := Z.of_nat (List.length l)).
  destruct (Z.le_gt_cases start len) as [Hle|Hgt].
  - rewrite (Z.min_l start len) by trivial.
    destruct (Z.le_gt_cases (start + count) len) as [Hle'|Hgt'].
    + rewrite Z.min_l by trivial. f_equal. lia.
    + rewrite Z.min_r by lia.
      rewrite !firstn_all2; trivial; rewrite length_skipn; unfold len in *; lia.
  - rewrite (Z.min_r start len) by lia. rewrite Z.min_r by lia.
    rewrite !skipn_all2 by (unfold len in *; lia).
    now rewrite !firstn_nil.
Qed.

Lemma slice_is_window (start fin : Z) (l : list A) :
  exists n m, JS.slice start fin l = firstn n (skipn m l).
Proof. unfold JS.slice. eauto. Qed.



Lemma ranks_before_pair (x y a b : A) :
  ranks_before x y [a; b] -> x = a /\ y = b.
Proof.
  intros (l1 & l2 & l3 & H).
  destruct l1 as [|c l1]; cbn in H.
  - injection H as -> H. destruct l2 as [|c l2]; cbn in H.
    + injection H as -> _. now split.
    + injection H as _ H. destruct l2; discriminate H.
  - injection H as _ H. destruct l1 as [|d l1]; cbn in H.
    + injection H as _ H. destruct l2; discriminate H.
    + injection H as _ H. destruct l1; discriminate H.
Qed.


Section Sorted.

Variable R : A -> A -> Prop.

Lemma StronglySorted_app_r (a l : list A) :
  StronglySorted R (a ++ l) -> StronglySorted R l.
Proof.
  induction a as [|x a IH]; [trivial|].
  cbn. intros H. apply StronglySorted_inv in H as [H _]. now apply IH.
Qed.

Lemma StronglySorted_ranks (x y : A) (l : list A) :
  StronglySorted R l -> ranks_before x y l -> R x y.
Proof.
  intros H (l1 & l2 & l3 & ->).
  apply StronglySorted_app_r in H.
  apply StronglySorted_inv in H as [_ H].
  rewrite Forall_forall in H. apply H.
  apply in_or_app. right. now left.
Qed.

Lemma StronglySorted_filter (f : A -> bool) (l : list A) :
  StronglySorted R l -> StronglySorted R (filter f l).
Proof.
  induction 1 as [|x l Hl IH Hx]; cbn; [constructor|].
  destruct (f x); [|trivial].
  constructor; [trivial|].
  rewrite Forall_forall in *. intros y Hy.
  apply filter_In in Hy as [Hy _]. now apply Hx.
Qed.

Lemma StronglySorted_firstn (n : nat) (l : list A) :
  StronglySorted R l -> StronglySorted R (firstn n l).
Proof.
  intros H. revert n.
  induction H as [|x l Hl IH Hx]; intros [|n]; cbn; try constructor.
  - apply IH.
  - rewrite Forall_forall in *. intros y Hy.
    apply Hx. revert Hy. clear. revert n.
    induction l as [|z l IHl]; intros [|n]; cbn; try tauto.
    intros [->|H]; [now left|right; eauto].
Qed.



End Sorted.

(** In a descending sequence, an element of strictly larger key that occurs
    at all occurs before any occurrence in a prefix. *)
Lemma descending_higher_first (key : A -> Z) (x y : A) (p l : list A) :
  descending key l -> prefix_of p l -> In y p -> In x l -> key y < key x ->
  ranks_before x y p.
Proof.
  intros D [rest ->] Hy Hx Hlt.
  apply in_split in Hy as (a & b & ->).
  rewrite <- app_assoc, <- app_comm_cons in Hx, D.
  apply in_app_or in Hx as [Hx|[Hx|Hx]].
  - apply in_split in Hx as (a1 & a2 & ->).
    exists a1, a2, b. now rewrite <- app_assoc.
  - subst. lia.
  - apply StronglySorted_app_r in D.
    apply StronglySorted_inv in D as [_ D].
    rewrite Forall_forall in D. specialize (D x Hx). cbn in D. lia.
Qed.

End ListFacts.

(** ** Facts about the search *)

Section SearchFacts.

Variable toLowerCase : string -> string.
Variable DATASETS_INDEX : DatasetsIndex.

Lemma keyword_loop (query : string) (ks : list string) (score : Z) :
  fold_left (keyword_step toLowerCase (toLowerCase query)) ks score
  = score + sumZ (map (keyword_points toLowerCase query) ks).
Proof.
  revert score. induction ks as [|kw ks IH]; intros score.
  - cbn. lia.
  - cbn [fold_left map]. rewrite IH.
    change (sumZ (?x :: ?l)) with (x + sumZ l).
    unfold keyword_step, keyword_points, ci_equal, ci_contains.
    rewrite (String.eqb_sym (toLowerCase query)).
    destruct (toLowerCase kw =? toLowerCase query)%string; [lia|].
    destruct (JS.includes (toLowerCase kw) (toLowerCase query)); lia.
Qed.

Lemma score_of_spec (query : string) (d : TaggedDataset) :
  score_of toLowerCase (toLowerCase query) d = points toLowerCase query d.
Proof.
  unfold score_of, points, score_spec, other_points.
  rewrite keyword_loop.
  unfold id_points, name_points, description_points, keywords_points,
    ci_equal, ci_contains.
  rewrite (String.eqb_sym (toLowerCase query)).
  destruct (toLowerCase (id (dataset d)) =? toLowerCase query)%string;
    destruct (JS.includes (toLowerCase (id (dataset d))) (toLowerCase query));
    destruct (JS.includes (toLowerCase (name (dataset d)))
                (toLowerCase query));
    destruct (JS.includes (toLowerCase (description (dataset d)))
                (toLowerCase query));
    destruct (keywords (dataset d)); cbn [map sumZ fold_right]; lia.
Qed.

Lemma scoredDatasets_acc (queryLower : string) (ds : list TaggedDataset)
  (acc : list (Z * TaggedDataset)) :
  fold_left
    (fun scored d =>
       let score := score_of toLowerCase queryLower d in
       if 0 <? score then scored ++ [(score, d)] else scored) ds acc
  = acc ++ map (fun d => (score_of toLowerCase queryLower d, d))
             (filter (fun d => 0 <? score_of toLowerCase queryLower d) ds).
Proof.
  revert acc. induction ds as [|d ds IH]; intros acc; cbn.
  - now rewrite app_nil_r.
  - rewrite IH.
    destruct (0 <? score_of toLowerCase queryLower d); cbn; [|reflexivity].
    now rewrite <- app_assoc.
Qed.

Lemma scoredDatasets_matching (query : string) (ds : list TaggedDataset) :
  scoredDatasets toLowerCase (toLowerCase query) ds
  = map (fun d => (points toLowerCase query d, d))
      (matching toLowerCase query ds).
Proof.
  unfold scoredDatasets. rewrite scoredDatasets_acc. cbn [app].
  unfold matching.
  rewrite (filter_ext _ (fun d => 0 <? points toLowerCase query d))
    by (intros d; now rewrite score_of_spec).
  apply map_ext. intros d. now rewrite score_of_spec.
Qed.

Lemma sort_pairs (f : TaggedDataset -> Z) (l : list TaggedDataset) :
  JS.Array_sort by_score_desc (map (fun d => (f d, d)) l)
  = map (fun d => (f d, d)) (JS.Array_sort (by_key_desc f) l).
Proof.
  induction l as [|x l IH]; [reflexivity|].
  cbn [map JS.Array_sort fold_right].
  fold (JS.Array_sort by_score_desc (map (fun d => (f d, d)) l)).
  fold (JS.Array_sort (by_key_desc f) l).
  rewrite IH. generalize (JS.Array_sort (by_key_desc f) l) as s.
  induction s as [|y s IHs]; [reflexivity|].
  cbn [map JS.sort_insert]. unfold by_score_desc at 1, by_key_desc at 1.
  cbn [fst]. destruct (0 <? f y - f x); [|reflexivity].
  cbn [map]. now rewrite IHs.
Qed.

Lemma slice_map {A B : Type} (g : A -> B) (start fin : Z) (l : list A) :
  JS.slice start fin (map g l) = map g (JS.slice start fin l).
Proof.
  unfold JS.slice. rewrite length_map.
  now rewrite skipn_map, firstn_map.
Qed.

(** The search result is a [slice] of the stably sorted matching records. *)
Lemma search_datasets_ranked (query : string) (src : option string)
  (limit : option Z) :
  sr_datasets (search_datasets toLowerCase DATASETS_INDEX query src limit)
  = JS.slice 0 (match limit with Some n => n | None => 10 end)
      (JS.Array_sort (by_key_desc (points toLowerCase query))
         (matching toLowerCase query (collect DATASETS_INDEX src))).
Proof.
  unfold search_datasets. cbn [sr_datasets].
  rewrite scoredDatasets_matching, sort_pairs, slice_map, map_map.
  cbn [snd]. apply map_id.
Qed.

Lemma search_count (query : string) (src : option string) (limit : option Z) :
  sr_count (search_datasets toLowerCase DATASETS_INDEX query src limit)
  = Z.of_nat (List.length
      (sr_datasets
         (search_datasets toLowerCase DATASETS_INDEX query src limit))).
Proof. reflexivity. Qed.

End SearchFacts.

Section RankingFacts.

Variable toLowerCase : string -> string.

Lemma sumZ_nonneg (l : list Z) : Forall (fun z => 0 <= z) l -> 0 <= sumZ l.
Proof. induction 1; unfold sumZ in *; cbn [fold_right]; lia. Qed.

Lemma keywords_points_nonneg (query : string) (d : Dataset) :
  0 <= keywords_points toLowerCase query d.
Proof.
  unfold keywords_points. destruct (keywords d) as [ks|]; [|lia].
  apply sumZ_nonneg. apply Forall_forall. intros z Hz.
  apply in_map_iff in Hz as (kw & <- & _). unfold keyword_points.
  destruct (ci_equal toLowerCase kw query); [lia|].
  destruct (ci_contains toLowerCase kw query); lia.
Qed.

Lemma other_points_nonneg (query : string) (d : Dataset) :
  0 <= other_points toLowerCase query d.
Proof.
  unfold other_points, name_points, description_points.
  pose proof (keywords_points_nonneg query d).
  destruct (ci_contains toLowerCase (name d) query);
    destruct (ci_contains toLowerCase (description d) query); lia.
Qed.

Lemma points_exact (query : string) (d : TaggedDataset) :
  exact_id toLowerCase query (dataset d) ->
  points toLowerCase query d = 100 + other_points toLowerCase query (dataset d).
Proof.
  unfold exact_id, points, score_spec, id_points. now intros ->.
Qed.

Lemma points_partial (query : string) (d : TaggedDataset) :
  partial_id toLowerCase query (dataset d) ->
  points toLowerCase query d = 50 + other_points toLowerCase query (dataset d).
Proof.
  unfold partial_id, points, score_spec, id_points. now intros [-> ->].
Qed.

Lemma filter_firstn_prefix {A : Type} (f : A -> bool) (n : nat) (l : list A) :
  prefix_of (filter f (firstn n l)) (filter f l).
Proof.
  exists (filter f (skipn n l)).
  now rewrite <- filter_app, firstn_skipn.
Qed.

(** Among the records of one score, the matching records are all the
    candidates when the score is positive, and none otherwise. *)
Lemma filter_key_matching (query : string) (k : Z) (l : list TaggedDataset) :
  filter (has_key (points toLowerCase query) k) (matching toLowerCase query l)
  = if 0 <? k then filter (has_key (points toLowerCase query) k) l else [].
Proof.
  unfold matching. induction l as [|d l IH]; cbn [filter].
  - now destruct (0 <? k).
  - destruct (0 <? points toLowerCase query d) eqn:Ep; cbn [filter];
      rewrite IH; destruct (0 <? k) eqn:Ek;
      destruct (has_key (points toLowerCase query) k d) eqn:E;
      try reflexivity; exfalso;
      apply Z.eqb_eq in E; rewrite E in Ep; congruence.
Qed.

End RankingFacts.

(** ** Properties of the search *)

(** C1. The score computed by the search loop is the reference score of the
    specification: 100 for an id equal to the query, else 50 for an id that
    contains it; 30 for the name; 10 for the description; 40 or else 20 for
    each keyword, all comparisons on lower-cased text. The scored list the
    loop builds holds exactly the candidates of positive score, in order, and
    no returned record has score 0. *)
Theorem search_score_is_reference_score :
  forall (toLowerCase : string -> string) (index : DatasetsIndex)
         (query : string),
    (forall d : TaggedDataset,
        score_of toLowerCase (toLowerCase query) d
        = id_points toLowerCase query (dataset d)
          + name_points toLowerCase query (dataset d)
          + description_points toLowerCase query (dataset d)
          + keywords_points toLowerCase query (dataset d))
    /\ (forall candidates : list TaggedDataset,
           scoredDatasets toLowerCase (toLowerCase query) candidates
           = map (fun d => (score_spec toLowerCase query (dataset d), d))
               (filter (fun d => 0 <? score_spec toLowerCase query (dataset d))
                  candidates))
    /\ (forall (src : option string) (limit : option Z) (d : TaggedDataset),
           In d (sr_datasets
                   (search_datasets toLowerCase index query src limit)) ->
           In d (collect index src)
           /\ 0 < score_spec toLowerCase query (dataset d)).
Proof.
  intros toLowerCase index query. split; [|split].
  - intros d. rewrite score_of_spec.
    unfold points, score_spec, other_points. lia.
  - intros candidates. apply scoredDatasets_matching.
  - intros src limit d Hd.
    rewrite search_datasets_ranked in Hd.
    destruct (slice_from_0_prefix (or_default limit 10)
                (JS.Array_sort (by_key_desc (points toLowerCase query))
                   (matching toLowerCase query (collect index src))))
      as [rest Hrest].
    unfold or_default in Hrest.
    assert (Hin : In d (JS.Array_sort (by_key_desc (points toLowerCase query))
                          (matching toLowerCase query (collect index src)))).
    { rewrite Hrest. apply in_or_app. now left. }
    apply sort_in in Hin. unfold matching in Hin.
    apply filter_In in Hin as [Hin Hpos].
    apply Z.ltb_lt in Hpos. now split.
Qed.

(** C2, as the code has it: for every limit the returned records are
    sorted by non-increasing score, list the records of each score in the
    order of the concatenated input, and are an initial segment of the
    sequence obtained by sorting the matching records by non-increasing
    score while keeping records of equal score in their order of encounter;
    for a non-negative limit (10 when absent) they are the first [limit]
    records of that sequence, hence at most [limit]. *)
Theorem search_results_sorted_stable_truncated :
  forall (toLowerCase : string -> string) (index : DatasetsIndex)
         (query : string) (src : option string) (limit : option Z),
    exists ranked : list TaggedDataset,
      stable_sort_of (points toLowerCase query)
        (matching toLowerCase query (collect index src)) ranked
      /\ prefix_of
           (sr_datasets (search_datasets toLowerCase index query src limit))
           ranked
      /\ descending (points toLowerCase query)
           (sr_datasets (search_datasets toLowerCase index query src limit))
      /\ (forall k : Z,
             prefix_of
               (filter (has_key (points toLowerCase query) k)
                  (sr_datasets
                     (search_datasets toLowerCase index query src limit)))
               (filter (has_key (points toLowerCase query) k)
                  (collect index src)))
      /\ (0 <= or_default limit 10 ->
          sr_datasets (search_datasets toLowerCase index query src limit)
          = firstn (Z.to_nat (or_default limit 10)) ranked
          /\ Z.of_nat
               (List.length
                  (sr_datasets
                     (search_datasets toLowerCase index query src limit)))
             <= or_default limit 10).
Proof.
  intros toLowerCase index query src limit.
  set (ranked := JS.Array_sort (by_key_desc (points toLowerCase query))
                   (matching toLowerCase query (collect index src))).
  assert (Hres : exists n,
             sr_datasets (search_datasets toLowerCase index query src limit)
             = firstn n ranked).
  { rewrite search_datasets_ranked, slice_from_0. eexists. reflexivity. }
  destruct Hres as [n Hres].
  destruct (sort_stable (points toLowerCase query)
              (matching toLowerCase query (collect index src)))
    as [Hdesc Hsame].
  fold ranked in Hdesc, Hsame.
  exists ranked. split; [now split|]. split; [|split; [|split]].
  - rewrite Hres. apply firstn_prefix.
  - rewrite Hres. now apply StronglySorted_firstn.
  - intros k. rewrite Hres.
    destruct (filter_firstn_prefix (has_key (points toLowerCase query) k)
                n ranked) as [rest Hrest].
    rewrite Hsame, filter_key_matching in Hrest.
    destruct (0 <? k).
    + now exists rest.
    + symmetry in Hrest. apply app_eq_nil in Hrest as [-> _].
      now exists (filter (has_key (points toLowerCase query) k)
                    (collect index src)).
  - intros Hlimit.
    assert (Hfirst :
      sr_datasets (search_datasets toLowerCase index query src limit)
      = firstn (Z.to_nat (or_default limit 10)) ranked).
    { rewrite search_datasets_ranked. now apply slice_from_0_nonneg. }
    split; [exact Hfirst|]. rewrite Hfirst, length_firstn. lia.
Qed.

(** C2 as stated fails for a negative limit: [slice(0, -1)] drops the last
    record only, so one record is returned although the limit is -1. *)
Lemma search_negative_limit_counterexample :
  sr_datasets
    (search_datasets JS.ascii_toLowerCase Examples.gdp_index "gdp" None
       (Some (-1)))
  = [tag Examples.gdp_qtr "opendosm"]
  /\ ~ Z.of_nat
         (List.length
            (sr_datasets
               (search_datasets JS.ascii_toLowerCase Examples.gdp_index "gdp"
                  None (Some (-1)))))
       <= -1.
Proof.
  split; [reflexivity|].
  change (~ 1 <= -1). lia.
Qed.

Lemma search_results_sorted_stable_truncated_witness :
  0 <= or_default (Some 1) 10
  /\ sr_datasets
       (search_datasets JS.ascii_toLowerCase Examples.gdp_index "gdp" None
          (Some 1))
     = [tag Examples.gdp_qtr "opendosm"].
Proof.
  split; [cbn; lia|].
  destruct (search_results_sorted_stable_truncated JS.ascii_toLowerCase
              Examples.gdp_index "gdp" None (Some 1))
    as (ranked & _ & _ & _ & _ & H).
  destruct H as [_ _]; [cbn; lia|reflexivity].
Defined.

(** C3, as the code has it: a record whose id equals the query is ranked
    before a record whose id merely contains it whenever the name,
    description and keyword clauses give the second record less than 50
    points more than the first; then the first is returned, and earlier,
    whenever the second is returned. *)
Theorem exact_id_outranks_partial_id :
  forall (toLowerCase : string -> string) (index : DatasetsIndex)
         (query : string) (src : option string) (limit : option Z)
         (x y : TaggedDataset),
    In x (collect index src) ->
    exact_id toLowerCase query (dataset x) ->
    partial_id toLowerCase query (dataset y) ->
    other_points toLowerCase query (dataset y)
    < other_points toLowerCase query (dataset x) + 50 ->
    In y (sr_datasets (search_datasets toLowerCase index query src limit)) ->
    ranks_before x y
      (sr_datasets (search_datasets toLowerCase index query src limit))
    /\ ~ ranks_before y x
           (sr_datasets (search_datasets toLowerCase index query src limit)).
Proof.
  intros toLowerCase index query src limit x y Hx Hex Hpart Hother Hy.
  rewrite search_datasets_ranked in *.
  set (ranked := JS.Array_sort (by_key_desc (points toLowerCase query))
                   (matching toLowerCase query (collect index src))) in *.
  pose proof (points_exact toLowerCase query x Hex) as Px.
  pose proof (points_partial toLowerCase query y Hpart) as Py.
  pose proof (other_points_nonneg toLowerCase query (dataset x)) as Ox.
  assert (Hdesc : descending (points toLowerCase query) ranked)
    by apply sort_descending.
  assert (Hxr : In x ranked).
  { apply sort_in. apply filter_In. split; [trivial|].
    apply Z.ltb_lt. lia. }
  split.
  - eapply descending_higher_first; eauto.
    + apply slice_from_0_prefix.
    + lia.
  - intros Hyx.
    assert (Hd : descending (points toLowerCase query)
                   (JS.slice 0 match limit with Some n => n | None => 10 end
                      ranked)).
    { rewrite slice_from_0. now apply StronglySorted_firstn. }
    pose proof (StronglySorted_ranks _ _ _ _ Hd Hyx) as Hle.
    cbn in Hle. lia.
Qed.

(** C3 as stated fails: the id clause is one summand among others, and a
    partial id match with name, description and keyword matches (150 points)
    is ranked before an exact id match without them (100 points). *)
Lemma exact_id_outranked_counterexample :
  exact_id JS.ascii_toLowerCase "gdp" Examples.gdp
  /\ partial_id JS.ascii_toLowerCase "gdp" Examples.gdp_qtr
  /\ sr_datasets
       (search_datasets JS.ascii_toLowerCase Examples.gdp_index "gdp" None
          None)
     = [tag Examples.gdp_qtr "opendosm"; tag Examples.gdp "opendosm"]
  /\ ~ ranks_before (tag Examples.gdp "opendosm")
         (tag Examples.gdp_qtr "opendosm")
         (sr_datasets
            (search_datasets JS.ascii_toLowerCase Examples.gdp_index "gdp"
               None None)).
Proof.
  split; [reflexivity|]. split; [split; reflexivity|].
  split; [reflexivity|].
  change (sr_datasets
            (search_datasets JS.ascii_toLowerCase Examples.gdp_index "gdp"
               None None))
    with [tag Examples.gdp_qtr "opendosm"; tag Examples.gdp "opendosm"].
  intros H. apply ranks_before_pair in H as [H _]. discriminate H.
Qed.

Lemma exact_id_outranks_partial_id_witness :
  ranks_before (tag Examples.gdp_only_id "opendosm")
    (tag Examples.gdp_qtr_only_id "opendosm")
    (sr_datasets
       (search_datasets JS.ascii_toLowerCase Examples.id_only_index "gdp"
          None None)).
Proof.
  apply (exact_id_outranks_partial_id JS.ascii_toLowerCase
           Examples.id_only_index "gdp" None None
           (tag Examples.gdp_only_id "opendosm")
           (tag Examples.gdp_qtr_only_id "opendosm")).
  - cbn. right. left. reflexivity.
  - reflexivity.
  - split; reflexivity.
  - cbn. lia.
  - cbn. right. left. reflexivity.
Defined.

Section ListingFacts.

Variable toLowerCase : string -> string.
Variable index : DatasetsIndex.

Lemma category_matches_ci_equal (c : string) (d : TaggedDataset) :
  category_matches toLowerCase c d = category_ci_equal toLowerCase c d.
Proof. reflexivity. Qed.

(** What [list_datasets] keeps before pagination. *)
Lemma list_datasets_window (src cat : option string) (limit offset : option Z) :
  lr_datasets (list_datasets toLowerCase index src cat limit offset)
  = JS.slice (or_default offset 0)
      (or_default offset 0 + or_default limit 100)
      (if JS.truthy cat
       then kept_by_category toLowerCase cat (collect index src)
       else collect index src).
Proof.
  unfold list_datasets. cbn [lr_datasets].
  destruct cat as [c|]; cbn [JS.truthy kept_by_category];
    [destruct (negb (c =? "")%string)|]; reflexivity.
Qed.

Lemma list_datasets_total (src cat : option string) (limit offset : option Z) :
  lr_total (list_datasets toLowerCase index src cat limit offset)
  = Z.of_nat (List.length
      (if JS.truthy cat
       then kept_by_category toLowerCase cat (collect index src)
       else collect index src)).
Proof.
  unfold list_datasets. cbn [lr_total].
  destruct cat as [c|]; cbn [JS.truthy kept_by_category];
    [destruct (negb (c =? "")%string)|]; reflexivity.
Qed.

Lemma kept_effective (cat : option string) (l : list TaggedDataset) :
  (if JS.truthy cat then kept_by_category toLowerCase cat l else l)
  = kept_by_category toLowerCase (effective_filter cat) l.
Proof.
  destruct cat as [c|]; [|reflexivity]. cbn.
  now destruct (c =? "")%string.
Qed.

End ListingFacts.

(** C4, as the code has it: for every category filter and a non-negative
    limit and offset (100 and 0 when absent), [list_datasets] keeps exactly
    the records whose category case-insensitively equals the filter in
    effect, where an empty-string filter is treated as no filter (the call
    is then the call without category filter, and every candidate is kept);
    records with no category are dropped by a non-empty filter; [total]
    counts the kept records before pagination; the records returned are
    those at positions [offset, offset + limit) of the kept sequence; and an
    offset at or beyond [total] gives no record, with [total] unchanged. *)
Theorem list_datasets_filters_and_paginates :
  forall (toLowerCase : string -> string) (index : DatasetsIndex)
         (src cat : option string) (limit offset : option Z),
    0 <= or_default limit 100 ->
    0 <= or_default offset 0 ->
    lr_total (list_datasets toLowerCase index src cat limit offset)
    = Z.of_nat
        (List.length
           (kept_by_category toLowerCase (effective_filter cat)
              (collect index src)))
    /\ lr_datasets (list_datasets toLowerCase index src cat limit offset)
       = firstn (Z.to_nat (or_default limit 100))
           (skipn (Z.to_nat (or_default offset 0))
              (kept_by_category toLowerCase (effective_filter cat)
                 (collect index src)))
    /\ (forall i : nat,
           nth_error
             (lr_datasets
                (list_datasets toLowerCase index src cat limit offset))
             i
           = if Nat.ltb i (Z.to_nat (or_default limit 100))
             then nth_error
                    (kept_by_category toLowerCase (effective_filter cat)
                       (collect index src))
                    (Z.to_nat (or_default offset 0) + i)
             else None)
    /\ lr_count (list_datasets toLowerCase index src cat limit offset)
       = Z.of_nat
           (List.length
              (lr_datasets
                 (list_datasets toLowerCase index src cat limit offset)))
    /\ (lr_total (list_datasets toLowerCase index src cat limit offset)
        <= or_default offset 0 ->
        lr_datasets (list_datasets toLowerCase index src cat limit offset)
        = [])
    /\ (forall (c : string) (d : TaggedDataset),
           cat = Some c -> c <> ""%string ->
           (In d (kept_by_category toLowerCase (effective_filter cat)
                    (collect index src))
            <-> In d (collect index src)
                /\ exists c', category (dataset d) = Some c'
                              /\ toLowerCase c' = toLowerCase c))
    /\ (cat = Some ""%string \/ cat = None ->
        kept_by_category toLowerCase (effective_filter cat)
          (collect index src)
        = collect index src
        /\ list_datasets toLowerCase index src cat limit offset
           = list_datasets toLowerCase index src None limit offset).
Proof.
  intros toLowerCase index src cat limit offset Hlimit Hoffset.
  assert (Hwin :
    lr_datasets (list_datasets toLowerCase index src cat limit offset)
    = firstn (Z.to_nat (or_default limit 100))
        (skipn (Z.to_nat (or_default offset 0))
           (kept_by_category toLowerCase (effective_filter cat)
              (collect index src)))).
  { rewrite list_datasets_window, kept_effective. now apply slice_window. }
  assert (Htot :
    lr_total (list_datasets toLowerCase index src cat limit offset)
    = Z.of_nat
        (List.length
           (kept_by_category toLowerCase (effective_filter cat)
              (collect index src)))).
  { now rewrite list_datasets_total, kept_effective. }
  split; [exact Htot|]. split; [exact Hwin|].
  split; [|split; [|split; [|split]]].
  - intros i. rewrite Hwin, nth_error_firstn, nth_error_skipn. reflexivity.
  - reflexivity.
  - rewrite Htot, Hwin. intros Hle.
    rewrite skipn_all2 by lia. apply firstn_nil.
  - intros c d -> Hc. cbn [effective_filter].
    destruct (String.eqb_spec c ""); [contradiction|].
    cbn [kept_by_category]. rewrite filter_In.
    unfold category_ci_equal, ci_equal.
    destruct (category (dataset d)) as [c'|].
    + split.
      * intros [Hin He]. split; [trivial|]. exists c'. split; [trivial|].
        now apply String.eqb_eq.
      * intros [Hin (c'' & Hc' & He)]. split; [trivial|].
        injection Hc' as ->. now apply String.eqb_eq.
    + split.
      * intros [_ H]. discriminate H.
      * intros [_ (c'' & Hc' & _)]. discriminate Hc'.
  - intros [-> | ->]; split; reflexivity.
Qed.

(** C4 as stated fails for the empty string as category filter: the test
    [if (category)] treats it as absent, so nothing is filtered and a record
    without category is listed. *)
Lemma list_empty_category_counterexample :
  category Examples.gdp = None
  /\ In (tag Examples.gdp "opendosm")
       (lr_datasets
          (list_datasets JS.ascii_toLowerCase Examples.gdp_index None
             (Some "") None None))
  /\ category_ci_equal JS.ascii_toLowerCase ""
       (tag Examples.gdp "opendosm") = false.
Proof.
  split; [reflexivity|]. split; [|reflexivity].
  cbn. left. reflexivity.
Qed.

Lemma list_datasets_filters_and_paginates_witness :
  lr_datasets
    (list_datasets JS.ascii_toLowerCase Examples.mixed_index None
       (Some "PRICES") (Some 1) (Some 1))
  = [tag Examples.fuelprice "data_catalogue"]
  /\ lr_total
       (list_datasets JS.ascii_toLowerCase Examples.mixed_index None
          (Some "PRICES") (Some 1) (Some 1))
     = 2.
Proof.
  destruct (list_datasets_filters_and_paginates JS.ascii_toLowerCase
              Examples.mixed_index None (Some "PRICES") (Some 1) (Some 1))
    as (Htotal & Hrecords & _).
  - cbn. lia.
  - cbn. lia.
  - split; [rewrite Hrecords|rewrite Htotal]; reflexivity.
Defined.

Section SourceOrderFacts.

Variable toLowerCase : string -> string.
Variable index : DatasetsIndex.






End SourceOrderFacts.



Section EmptyQueryFacts.

Variable toLowerCase : string -> string.

Lemma includes_empty (s : string) : JS.includes s "" = true.
Proof. destruct s; reflexivity. Qed.

Lemma sort_insert_permutation {A : Type} (cmp : A -> A -> Z) (x : A)
  (l : list A) :
  Permutation (JS.sort_insert cmp x l) (x :: l).
Proof.
  induction l as [|y l IH]; cbn; [reflexivity|].
  destruct (0 <? cmp x y); [|reflexivity].
  rewrite IH. apply perm_swap.
Qed.

Lemma sort_permutation {A : Type} (cmp : A -> A -> Z) (l : list A) :
  Permutation (JS.Array_sort cmp l) l.
Proof.
  induction l as [|x l IH]; cbn; [reflexivity|].
  rewrite sort_insert_permutation. now constructor.
Qed.

Lemma empty_query_points (d : TaggedDataset) :
  toLowerCase "" = "" ->
  name_points toLowerCase "" (dataset d) = 30
  /\ description_points toLowerCase "" (dataset d) = 10
  /\ 50 <= id_points toLowerCase "" (dataset d)
  /\ 90 <= points toLowerCase "" d.
Proof.
  intros H.
  pose proof (keywords_points_nonneg toLowerCase "" (dataset d)) as Hk.
  unfold points, score_spec, other_points, id_points, name_points,
    description_points, ci_contains.
  rewrite H, !includes_empty.
  destruct (ci_equal toLowerCase (id (dataset d)) ""); repeat split; lia.
Qed.

Lemma matching_empty_query (l : list TaggedDataset) :
  toLowerCase "" = "" -> matching toLowerCase "" l = l.
Proof.
  intros H. unfold matching. induction l as [|d l IH]; [reflexivity|].
  cbn [filter]. rewrite IH.
  destruct (empty_query_points d H) as (_ & _ & _ & Hp).
  destruct (Z.ltb_spec 0 (points toLowerCase "" d)); [reflexivity|lia].
Qed.

End EmptyQueryFacts.

(** C10, as the code has it: for the empty query every record scores above
    0 (the name and description clauses fire, and so does the id clause), so
    no record is excluded, and for a non-negative limit (10 when absent) the
    search returns exactly min(limit, number of records of the selected
    sources) records. *)
Theorem empty_query_returns_min_limit_records :
  forall (toLowerCase : string -> string) (index : DatasetsIndex)
         (src : option string) (limit : option Z),
    toLowerCase "" = "" ->
    0 <= or_default limit 10 ->
    (forall d : TaggedDataset,
        0 < score_of toLowerCase (toLowerCase "") d
        /\ name_points toLowerCase "" (dataset d) = 30
        /\ description_points toLowerCase "" (dataset d) = 10)
    /\ scoredDatasets toLowerCase (toLowerCase "") (collect index src)
       = map (fun d => (score_of toLowerCase (toLowerCase "") d, d))
           (collect index src)
    /\ (exists ranked : list TaggedDataset,
           Permutation ranked (collect index src)
           /\ sr_datasets (search_datasets toLowerCase index "" src limit)
              = firstn (Z.to_nat (or_default limit 10)) ranked)
    /\ Z.of_nat
         (List.length
            (sr_datasets (search_datasets toLowerCase index "" src limit)))
       = Z.min (or_default limit 10)
           (Z.of_nat (List.length (collect index src)))
    /\ sr_count (search_datasets toLowerCase index "" src limit)
       = Z.min (or_default limit 10)
           (Z.of_nat (List.length (collect index src))).
Proof.
  intros toLowerCase index src limit Hempty Hlimit.
  assert (Hres :
    sr_datasets (search_datasets toLowerCase index "" src limit)
    = firstn (Z.to_nat (or_default limit 10))
        (JS.Array_sort (by_key_desc (points toLowerCase ""))
           (collect index src))).
  { rewrite search_datasets_ranked, matching_empty_query by trivial.
    now apply slice_from_0_nonneg. }
  assert (Hlen :
    Z.of_nat
      (List.length
         (sr_datasets (search_datasets toLowerCase index "" src limit)))
    = Z.min (or_default limit 10)
        (Z.of_nat (List.length (collect index src)))).
  { rewrite Hres, length_firstn, sort_length. lia. }
  split; [|split; [|split; [|split]]].
  - intros d. rewrite score_of_spec.
    destruct (empty_query_points toLowerCase d Hempty) as (Hn & Hd & _ & Hp).
    repeat split; trivial; lia.
  - rewrite scoredDatasets_matching, matching_empty_query by trivial.
    apply map_ext. intros d. now rewrite score_of_spec.
  - eexists. split; [|exact Hres]. apply sort_permutation.
  - exact Hlen.
  - rewrite search_count. exact Hlen.
Qed.

(** C10 as stated fails for a negative limit: with two records and limit -1
    the search returns one record, not min(-1, 2). *)
Lemma empty_query_negative_limit_counterexample :
  sr_count
    (search_datasets JS.ascii_toLowerCase Examples.gdp_index "" None
       (Some (-1)))
  = 1
  /\ sr_count
       (search_datasets JS.ascii_toLowerCase Examples.gdp_index "" None
          (Some (-1)))
     <> Z.min (-1) (Z.of_nat (List.length (collect Examples.gdp_index None))).
Proof. split; [reflexivity|]. intros H. discriminate H. Qed.

Lemma empty_query_returns_min_limit_records_witness :
  JS.ascii_toLowerCase "" = ""
  /\ 0 <= or_default None 10
  /\ sr_count
       (search_datasets JS.ascii_toLowerCase Examples.mixed_index "" None None)
     = 3.
Proof.
  split; [reflexivity|]. split; [cbn; lia|].
  destruct (empty_query_returns_min_limit_records JS.ascii_toLowerCase
              Examples.mixed_index None None) as (_ & _ & _ & _ & H).
  - reflexivity.
  - cbn. lia.
  - rewrite H. reflexivity.
Defined.

(** ** Facts about the conversions *)

Section ConversionFacts.

Lemma String_array (l : list JS.JSValue) :
  JS.String_ (JS.JArr l) = join_strings JS.String_ l.
Proof.
  induction l as [|x l IH]; [reflexivity|].
  change (JS.String_ (JS.JArr (x :: l)))
    with (match l with
          | [] => element_string JS.String_ x
          | _ :: _ =>
              (element_string JS.String_ x ++ ","
                 ++ JS.String_ (JS.JArr l))%string
          end).
  rewrite IH. reflexivity.
Qed.

Lemma ToString_array (l : list JS.JSValue) :
  ToString (JS.JArr l) = join_or_throw ToString l.
Proof.
  induction l as [|x l IH]; [reflexivity|].
  change (ToString (JS.JArr (x :: l)))
    with (match element_or_throw ToString x with
          | inl e => inl e
          | inr sx =>
              match l with
              | [] => inr sx
              | _ :: _ =>
                  match ToString (JS.JArr l) with
                  | inl e => inl e
                  | inr rest => inr (sx ++ "," ++ rest)%string
                  end
              end
          end).
  rewrite IH. reflexivity.
Qed.

Lemma JSValue_induction (P : JS.JSValue -> Prop) :
  P JS.JNull -> (forall b, P (JS.JBool b)) -> (forall n, P (JS.JNum n)) ->
  (forall s, P (JS.JStr s)) ->
  (forall l, Forall P l -> P (JS.JArr l)) ->
  (forall properties, P (JS.JObj properties)) ->
  forall v, P v.
Proof.
  intros Hnull Hbool Hnum Hstr Harr Hobj.
  fix IH 1.
  intros [ | b | n | s | elements | properties];
    [apply Hnull|apply Hbool|apply Hnum|apply Hstr| |apply Hobj].
  apply Harr.
  exact ((fix go (l : list JS.JSValue) : Forall P l :=
            match l with
            | [] => Forall_nil P
            | x :: l' => Forall_cons x (IH x) (go l')
            end) elements).
Qed.

Lemma join_sound (l : list JS.JSValue) :
  Forall (fun v => forall s, ToString v = inr s -> JS.String_ v = s) l ->
  forall s, join_or_throw ToString l = inr s ->
            join_strings JS.String_ l = s.
Proof.
  induction 1 as [|x l Hx Hl IH]; intros s H;
    cbn [join_or_throw join_strings] in *.
  - now injection H as <-.
  - assert (Hex : forall sx, element_or_throw ToString x = inr sx ->
                             element_string JS.String_ x = sx).
    { intros sx Hsx. destruct x; try (now apply Hx).
      now injection Hsx as <-. }
    destruct (element_or_throw ToString x) as [e|sx]; [discriminate H|].
    rewrite (Hex sx eq_refl).
    destruct l as [|y l']; [now injection H as <-|].
    destruct (join_or_throw ToString (y :: l')) as [e|rest];
      [discriminate H|].
    injection H as <-. now rewrite (IH rest eq_refl).
Qed.

(** Where [String(value)] does not throw, it gives [JS.String_ value]. *)
Lemma ToString_sound (v : JS.JSValue) :
  forall s, ToString v = inr s -> JS.String_ v = s.
Proof.
  induction v as [ | [|] | n | s0 | l Hl | properties]
    using JSValue_induction;
    intros s H; try (cbn in H; injection H as <-; reflexivity).
  - rewrite String_array. rewrite ToString_array in H. now apply join_sound.
  - cbn in H |- *.
    destruct (existsb _ properties); [discriminate H|]. now injection H as <-.
Qed.

(** The numeral that [JS.Number_toString] prints reads back as the
    number: it is its decimal numeral. *)
Lemma Number_toString_decimal (n : Z) :
  option_map Z.of_int (NilZero.int_of_string (JS.Number_toString n)) = Some n.
Proof.
  unfold JS.Number_toString. rewrite NilZero.isi.
  - cbn. now rewrite DecimalZ.of_to.
  - destruct n; cbn; try discriminate.
    intros H. injection H as H. now apply Unsigned.to_uint_nonnil in H.
  - destruct n; cbn; try discriminate.
    intros H. injection H as H. now apply Unsigned.to_uint_nonnil in H.
Qed.

Lemma append_entries_or_throw (entries : list (string * JS.JSValue))
  (params : Client.URLSearchParams) :
  forallb
    (fun kv =>
       prints_safe_integers (snd kv)
       && match ToString (snd kv) with
          | inr _ => true
          | inl _ => false
          end) entries = true ->
  fold_left
    (fun params kv =>
       match params with
       | inl e => inl e
       | inr params =>
           match ToString (snd kv) with
           | inl e => inl e
           | inr value => inr (params ++ [(fst kv, value)])
           end
       end) entries (inr params)
  = inr (params ++ map (fun kv => (fst kv, JS.String_ (snd kv))) entries).
Proof.
  revert params. induction entries as [|kv entries IH]; intros params H.
  - cbn. now rewrite app_nil_r.
  - cbn [forallb] in H. apply andb_true_iff in H as [Hkv H].
    apply andb_true_iff in Hkv as [_ Hkv].
    cbn [fold_left map].
    destruct (ToString (snd kv)) as [e|value] eqn:E; [discriminate Hkv|].
    rewrite (ToString_sound _ _ E). rewrite IH by exact H.
    now rewrite <- app_assoc.
Qed.

End ConversionFacts.

(** ** Facts about the client *)

Section ClientFacts.

Import Client.

Lemma append_entries (entries : list (string * JS.JSValue))
  (params : URLSearchParams) :
  fold_left (fun params kv => params ++ [(fst kv, JS.String_ (snd kv))])
    entries params
  = params ++ map (fun kv => (fst kv, JS.String_ (snd kv))) entries.
Proof.
  revert params. induction entries as [|kv entries IH]; intros params; cbn.
  - now rewrite app_nil_r.
  - rewrite IH. now rewrite <- app_assoc.
Qed.

Lemma build_params_filters (datasetId : string) (options : QueryOptions) :
  build_params datasetId options
  = build_params datasetId
      (mkOptions None (limit options) (offset options) (metaOnly options))
    ++ filter_params (filters options).
Proof.
  unfold build_params, filter_params. cbn [filters limit offset metaOnly].
  destruct (filters options) as [fs|]; [|now rewrite app_nil_r].
  destruct (JS.truthy_value fs); [|now rewrite app_nil_r].
  apply append_entries.
Qed.

(** One query: exactly one request, then the status test. *)
Lemma query_outcome (base label datasetId : string) (options : QueryOptions)
  (w : World) (log : list Request) (response : Response) :
  w log (mkRequest base (build_params datasetId options) "application/json")
  = Fulfilled response ->
  query base label datasetId options w log
  = (if ok response then json response
     else inl (label ++ " API error: " ++ JS.Number_toString (status response)
                 ++ " " ++ statusText response)%string,
     log ++ [mkRequest base (build_params datasetId options)
               "application/json"]).
Proof.
  intros H. unfold query, bind, fetch. rewrite H.
  destruct (ok response); cbn [negb]; [|reflexivity].
  destruct (json response); reflexivity.
Qed.

End ClientFacts.

(** On convertible filters nothing is thrown, and the parameters are those
    of [Client.build_params]. *)
Lemma build_params_or_throw_ok (datasetId : string)
  (options : Client.QueryOptions) :
  convertible (Client.filters options) = true ->
  build_params_or_throw datasetId options
  = inr (Client.build_params datasetId options).
Proof.
  intros H. unfold build_params_or_throw, Client.build_params, convertible in *.
  destruct (Client.filters options) as [fs|]; [|reflexivity].
  destruct (JS.truthy_value fs); [|reflexivity].
  rewrite append_entries_or_throw by exact H.
  now rewrite append_entries.
Qed.

(** C5, as the code has it: when the limit and the offset are safe
    integers and [String(value)] can convert every filter value (numbers
    being safe integers), the parameters built by the client are
    [id=<datasetId>] first; then [meta_only=true] alone when [metaOnly] is
    true, and otherwise [limit=<limit>] and [offset=<offset>] as decimal
    numerals, 100 and 0 when absent; then one parameter per filter entry
    with its value stringified. The example of the specification gives
    exactly id, limit=5, offset=0 and date=2024-01-01. *)
Theorem query_parameters :
  forall (datasetId : string) (filters : option JS.JSValue)
         (limit offset : option Z),
    safe_integer (or_default limit 100) = true ->
    safe_integer (or_default offset 0) = true ->
    convertible filters = true ->
    build_params_or_throw datasetId
      (Client.mkOptions filters limit offset (Some true))
    = inr ([("id", datasetId); ("meta_only", "true")]
             ++ filter_params filters)
    /\ build_params_or_throw datasetId
         (Client.mkOptions filters limit offset (Some false))
       = inr ([("id", datasetId);
               ("limit", JS.Number_toString (or_default limit 100));
               ("offset", JS.Number_toString (or_default offset 0))]
                ++ filter_params filters)
    /\ build_params_or_throw datasetId
         (Client.mkOptions filters limit offset None)
       = inr ([("id", datasetId);
               ("limit", JS.Number_toString (or_default limit 100));
               ("offset", JS.Number_toString (or_default offset 0))]
                ++ filter_params filters)
    /\ (forall metaOnly : option bool,
           build_params_or_throw datasetId
             (Client.mkOptions filters limit offset metaOnly)
           = inr (Client.build_params datasetId
                    (Client.mkOptions filters limit offset metaOnly)))
    /\ (forall properties : list (string * JS.JSValue),
           filter_params (Some (JS.JObj properties))
           = map (fun kv => (fst kv, JS.String_ (snd kv))) properties)
    /\ filter_params None = []
    /\ option_map Z.of_int
         (NilZero.int_of_string (JS.Number_toString (or_default limit 100)))
       = Some (or_default limit 100)
    /\ option_map Z.of_int
         (NilZero.int_of_string (JS.Number_toString (or_default offset 0)))
       = Some (or_default offset 0)
    /\ JS.Number_toString 100 = "100"
    /\ JS.Number_toString 0 = "0"
    /\ build_params_or_throw datasetId
         (Client.mkOptions (Some (JS.JObj [("date", JS.JStr "2024-01-01")]))
            (Some 5) (Some 0) None)
       = inr [("id", datasetId); ("limit", "5"); ("offset", "0");
              ("date", "2024-01-01")].
Proof.
  intros datasetId filters limit offset _ _ Hconv.
  assert (H : forall metaOnly : option bool,
             build_params_or_throw datasetId
               (Client.mkOptions filters limit offset metaOnly)
             = inr (Client.build_params datasetId
                      (Client.mkOptions filters limit offset metaOnly))).
  { intros metaOnly. now apply build_params_or_throw_ok. }
  rewrite !H.
  repeat split; try reflexivity; try apply Number_toString_decimal;
    try exact H; rewrite build_params_filters; reflexivity.
Qed.

(** C5 as stated fails for a filter value that [String(value)] cannot
    convert, an object with an own [toString] property: the TypeError is
    thrown inside the loop over the filter entries, so no parameter list is
    built at all, and none for this filter entry. *)
Lemma unconvertible_filter_counterexample :
  build_params_or_throw "gdp"
    (Client.mkOptions
       (Some (JS.JObj [("state", JS.JObj [("toString", JS.JNum 1)])]))
       None None None)
  = inl "Cannot convert object to primitive value".
Proof. reflexivity. Qed.

Lemma query_parameters_witness :
  safe_integer (or_default (Some 5) 100) = true
  /\ safe_integer (or_default (Some 0) 0) = true
  /\ convertible (Some (JS.JObj [("state", JS.JArr [JS.JStr "Johor"])]))
     = true
  /\ build_params_or_throw "gdp"
       (Client.mkOptions
          (Some (JS.JObj [("state", JS.JArr [JS.JStr "Johor"])]))
          (Some 5) (Some 0) None)
     = inr [("id", "gdp"); ("limit", "5"); ("offset", "0");
            ("state", "Johor")].
Proof.
  split; [reflexivity|]. split; [reflexivity|]. split; [reflexivity|].
  destruct (query_parameters "gdp"
              (Some (JS.JObj [("state", JS.JArr [JS.JStr "Johor"])]))
              (Some 5) (Some 0)) as (_ & _ & H & _);
    [reflexivity ..|].
  rewrite H. reflexivity.
Defined.



(** ** Facts about the tool handler *)

Section HandlerFacts.

Import Client.

Variable toLowerCase : string -> string.
Variable index : DatasetsIndex.
Variable JSON_parse : string -> string + JS.JSValue.

Lemma source_is_false (src : option string) (key : string) :
  src <> Some key -> source_is src key = false.
Proof.
  intros H. destruct src as [s|]; [|reflexivity]. cbn.
  destruct (String.eqb_spec s key); [now subst|reflexivity].
Qed.

Lemma handle_unknown (name : string) (args : ToolArgs) :
  known_tool name = false ->
  handle toLowerCase index JSON_parse name args
  = throw ("Unknown tool: " ++ name)%string.
Proof.
  unfold known_tool, tool_names. cbn [existsb]. intros H.
  repeat (apply orb_false_iff in H as [?E H]).
  unfold handle. now rewrite E, E0, E1, E2, E3, E4.
Qed.

Lemma handle_metadata_invalid (args : ToolArgs) :
  arg_source args <> Some "opendosm" ->
  arg_source args <> Some "data_catalogue" ->
  handle toLowerCase index JSON_parse "get_dataset_metadata" args
  = throw invalid_source.
Proof.
  intros H1 H2. unfold handle. cbn [String.eqb Ascii.eqb Bool.eqb].
  now rewrite (source_is_false _ _ H1), (source_is_false _ _ H2).
Qed.

Lemma handle_schema_invalid (args : ToolArgs) :
  arg_source args <> Some "opendosm" ->
  arg_source args <> Some "data_catalogue" ->
  handle toLowerCase index JSON_parse "get_dataset_schema" args
  = throw invalid_source.
Proof.
  intros H1 H2. unfold handle. cbn [String.eqb Ascii.eqb Bool.eqb].
  now rewrite (source_is_false _ _ H1), (source_is_false _ _ H2).
Qed.

(** The index record of the schema result. *)
Lemma find_info_source (u : Upstream) (dataset_id : string) :
  find_info index (Some (source_name u)) dataset_id
  = find (fun ds => (id ds =? dataset_id)%string) (records_of u index).
Proof. destruct u; reflexivity. Qed.

End HandlerFacts.

(** C7. The handler always returns a tool result: whatever error the
    handling of a call raises comes back as the payload
    [{error, tool, arguments}] with [isError] set, after the single pass that
    raised it (no request is added by the [catch]), and a call that raises
    nothing has [isError] unset. An unknown tool name gives the error
    "Unknown tool: <name>", and a source other than 'opendosm' and
    'data_catalogue' given to [get_dataset_metadata] or [get_dataset_schema]
    gives the error naming these two values, before any request. *)
Theorem tool_errors_are_reported :
  forall (toLowerCase : string -> string) (index : DatasetsIndex)
         (JSON_parse : string -> string + JS.JSValue)
         (name : string) (args : ToolArgs)
         (w : Client.World) (log : list Client.Request),
    (forall (errorMessage : string) (log' : list Client.Request),
        handle toLowerCase index JSON_parse name args w log
        = (inl errorMessage, log') ->
        call_tool toLowerCase index JSON_parse name args w log
        = (mkToolResult (Failure errorMessage name args) true, log'))
    /\ (forall (payload : ToolPayload) (log' : list Client.Request),
           handle toLowerCase index JSON_parse name args w log
           = (inr payload, log') ->
           call_tool toLowerCase index JSON_parse name args w log
           = (mkToolResult payload false, log'))
    /\ (known_tool name = false ->
        call_tool toLowerCase index JSON_parse name args w log
        = (mkToolResult (Failure ("Unknown tool: " ++ name)%string name args)
             true, log))
    /\ (name = "get_dataset_metadata" \/ name = "get_dataset_schema" ->
        arg_source args <> Some "opendosm" ->
        arg_source args <> Some "data_catalogue" ->
        call_tool toLowerCase index JSON_parse name args w log
        = (mkToolResult
             (Failure "Invalid source. Must be 'opendosm' or 'data_catalogue'"
                name args)
             true, log)).
Proof.
  intros toLowerCase index JSON_parse name args w log.
  split; [|split; [|split]].
  - intros errorMessage log' H. unfold call_tool. now rewrite H.
  - intros payload log' H. unfold call_tool. now rewrite H.
  - intros H. unfold call_tool. now rewrite handle_unknown.
  - intros [-> | ->] H1 H2; unfold call_tool.
    + now rewrite handle_metadata_invalid.
    + now rewrite handle_schema_invalid.
Qed.

Lemma tool_errors_are_reported_witness :
  call_tool JS.ascii_toLowerCase Examples.mixed_index Examples.parse_example
    "drop_dataset" Examples.no_args Examples.failing_upstream []
  = (mkToolResult
       (Failure "Unknown tool: drop_dataset" "drop_dataset" Examples.no_args)
       true, [])
  /\ call_tool JS.ascii_toLowerCase Examples.mixed_index
       Examples.parse_example "get_dataset_schema" Examples.no_args
       Examples.failing_upstream []
     = (mkToolResult
          (Failure "Invalid source. Must be 'opendosm' or 'data_catalogue'"
             "get_dataset_schema" Examples.no_args)
          true, []).
Proof.
  split.
  - destruct (tool_errors_are_reported JS.ascii_toLowerCase
                Examples.mixed_index Examples.parse_example "drop_dataset"
                Examples.no_args Examples.failing_upstream [])
      as (_ & _ & H & _).
    apply H. reflexivity.
  - destruct (tool_errors_are_reported JS.ascii_toLowerCase
                Examples.mixed_index Examples.parse_example
                "get_dataset_schema" Examples.no_args
                Examples.failing_upstream [])
      as (_ & _ & _ & H).
    apply H; [now right|discriminate|discriminate].
Defined.

(** C8. For a valid source and upstream calls that succeed,
    [get_dataset_schema] returns one result made of three parts: the index
    record with that id in the given source, or the placeholder
    [{id, name: "Unknown"}] when the source has none; the body of the
    request with [meta_only=true]; and the body of the request with
    [limit=3] (and [offset=0]). These two requests are the only ones. *)
Theorem schema_is_composed_of_three_parts :
  forall (toLowerCase : string -> string) (index : DatasetsIndex)
         (JSON_parse : string -> string + JS.JSValue)
         (u : Upstream) (args : ToolArgs)
         (w : Client.World) (log : list Client.Request)
         (r1 r2 : Client.Response) (metadata sample : JS.JSValue),
    arg_source args = Some (source_name u) ->
    w log
      (Client.mkRequest (base_url u)
         [("id", arg_dataset_id args); ("meta_only", "true")]
         "application/json")
    = Client.Fulfilled r1 ->
    Client.ok r1 = true ->
    Client.json r1 = inr metadata ->
    w (log ++ [Client.mkRequest (base_url u)
                 [("id", arg_dataset_id args); ("meta_only", "true")]
                 "application/json"])
      (Client.mkRequest (base_url u)
         [("id", arg_dataset_id args); ("limit", "3"); ("offset", "0")]
         "application/json")
    = Client.Fulfilled r2 ->
    Client.ok r2 = true ->
    Client.json r2 = inr sample ->
    call_tool toLowerCase index JSON_parse "get_dataset_schema" args w log
    = (mkToolResult
         (Schema
            (mkSchemaResult (arg_dataset_id args) (Some (source_name u))
               match find (fun ds => (id ds =? arg_dataset_id args)%string)
                       (records_of u index) with
               | Some d => IndexRecord d
               | None => Placeholder (arg_dataset_id args) "Unknown"
               end
               metadata sample))
         false,
       log ++ [Client.mkRequest (base_url u)
                 [("id", arg_dataset_id args); ("meta_only", "true")]
                 "application/json";
               Client.mkRequest (base_url u)
                 [("id", arg_dataset_id args); ("limit", "3"); ("offset", "0")]
                 "application/json"])
    /\ ((forall d, In d (records_of u index) -> id d <> arg_dataset_id args) ->
        find (fun ds => (id ds =? arg_dataset_id args)%string)
          (records_of u index)
        = None).
Proof.
  intros toLowerCase index JSON_parse u args w log r1 r2 metadata sample
    Hsrc H1 Hok1 Hj1 H2 Hok2 Hj2.
  split.
  - unfold call_tool, handle. cbn [String.eqb Ascii.eqb Bool.eqb].
    rewrite Hsrc, find_info_source. unfold Client.bind.
    destruct u; cbn [source_is source_name String.eqb Ascii.eqb Bool.eqb].
    + unfold Client.queryOpenDOSM.
      rewrite (query_outcome _ _ _ _ _ _ r1 H1), Hok1, Hj1.
      rewrite (query_outcome _ _ _ _ _ _ r2 H2), Hok2, Hj2.
      cbn [Client.ret]. now rewrite <- app_assoc.
    + unfold Client.queryDataCatalogue.
      rewrite (query_outcome _ _ _ _ _ _ r1 H1), Hok1, Hj1.
      rewrite (query_outcome _ _ _ _ _ _ r2 H2), Hok2, Hj2.
      cbn [Client.ret]. now rewrite <- app_assoc.
  - intros Habsent.
    destruct (find (fun ds => (id ds =? arg_dataset_id args)%string)
                (records_of u index)) as [d|] eqn:E; [|reflexivity].
    apply find_some in E as [Hin He]. apply String.eqb_eq in He.
    now apply Habsent in Hin.
Qed.

Lemma schema_is_composed_of_three_parts_witness :
  call_tool JS.ascii_toLowerCase Examples.gdp_index Examples.parse_example
    "get_dataset_schema" Examples.schema_args
    (Examples.upstream (JS.JStr "meta") (JS.JArr [])) []
  = (mkToolResult
       (Schema
          (mkSchemaResult "fuelprice" (Some "data_catalogue")
             (Placeholder "fuelprice" "Unknown") (JS.JStr "meta")
             (JS.JArr [])))
       false,
     [Client.mkRequest "https://api.data.gov.my/data-catalogue"
        [("id", "fuelprice"); ("meta_only", "true")] "application/json";
      Client.mkRequest "https://api.data.gov.my/data-catalogue"
        [("id", "fuelprice"); ("limit", "3"); ("offset", "0")]
        "application/json"]).
Proof.
  destruct (schema_is_composed_of_three_parts JS.ascii_toLowerCase
              Examples.gdp_index Examples.parse_example DataCatalogue
              Examples.schema_args
              (Examples.upstream (JS.JStr "meta") (JS.JArr [])) []
              (Examples.found (JS.JStr "meta")) (Examples.found (JS.JArr []))
              (JS.JStr "meta") (JS.JArr [])) as [H _];
    [reflexivity .. | exact H].
Defined.

(** ** The scenarios of the specification, evaluated *)

(** "given index {opendosm: [cpi_core ... keywords: [inflation]]},
    search(inflation) returns exactly that record with score 40" *)
Example search_inflation_scenario :
  sr_datasets
    (search_datasets JS.ascii_toLowerCase (mkIndex [Examples.cpi_core] [])
       "inflation" None None)
  = [tag Examples.cpi_core "opendosm"]
  /\ score_of JS.ascii_toLowerCase "inflation"
       (tag Examples.cpi_core "opendosm")
     = 40.
Proof. split; reflexivity. Qed.

(** Two records of equal keyword score keep their order of encounter, and
    the opendosm record comes first. *)
Example search_tie_scenario :
  sr_datasets
    (search_datasets JS.ascii_toLowerCase Examples.mixed_index "Inflation"
       None None)
  = [tag Examples.cpi_core "opendosm";
     tag Examples.fuelprice "data_catalogue"].
Proof. reflexivity. Qed.

(** "list with category=Prices returns only the records whose category
    equals it; offset = total returns an empty result with total kept" *)
Example list_prices_scenario :
  list_datasets JS.ascii_toLowerCase Examples.mixed_index None
    (Some "prices") None (Some 2)
  = mkListResult 2 100 2 0 [].
Proof. reflexivity. Qed.

(** A negative limit is taken from the end of the ranking by [slice]. *)
Example search_negative_limit_scenario :
  sr_datasets
    (search_datasets JS.ascii_toLowerCase Examples.mixed_index "" None
       (Some (-2)))
  = [tag Examples.fuelprice "data_catalogue"].
Proof. reflexivity. Qed.

(** ** Further properties of the search *)

Section SubstringFacts.

Lemma prefix_spec (q s : string) :
  String.prefix q s = true <-> exists b, s = (q ++ b)%string.
Proof.
  revert s. induction q as [|c q IH]; intros s.
  - split; [intros _; now exists s|intros _; now destruct s].
  - destruct s as [|c' s]; cbn.
    + split; [discriminate|intros [b H]; discriminate H].
    + destruct (Ascii.ascii_dec c c') as [->|Hne].
      * rewrite IH. split; intros [b H]; exists b.
        -- now rewrite H.
        -- now injection H.
      * split; [discriminate|]. intros [b H]. injection H as H _.
        now subst.
Qed.

(** [includes] finds exactly the contiguous occurrences. *)
Lemma includes_spec (s q : string) :
  JS.includes s q = true <-> exists a b, s = (a ++ q ++ b)%string.
Proof.
  induction s as [|c s IH]; cbn [JS.includes].
  - rewrite orb_false_r, prefix_spec. split.
    + intros [b H]. now exists ""%string, b.
    + intros (a & b & H). destruct a as [|c a]; [now exists b|discriminate H].
  - rewrite orb_true_iff, prefix_spec, IH. split.
    + intros [[b H]|(a & b & H)].
      * now exists ""%string, b.
      * exists (String c a), b. cbn. now rewrite H.
    + intros (a & b & H). destruct a as [|c' a].
      * left. now exists b.
      * right. cbn in H. injection H as _ H. now exists a, b.
Qed.

Lemma includes_refl (s : string) : JS.includes s s = true.
Proof.
  apply includes_spec. exists ""%string, ""%string. cbn.
  induction s as [|c s IH]; cbn; [reflexivity|now rewrite <- IH].
Qed.

End SubstringFacts.

Section MatchFacts.

Variable toLowerCase : string -> string.

Lemma ci_equal_contains (field query : string) :
  ci_equal toLowerCase field query = true ->
  ci_contains toLowerCase field query = true.
Proof.
  unfold ci_equal, ci_contains. intros H. apply String.eqb_eq in H.
  rewrite H. apply includes_refl.
Qed.

Lemma ci_contains_occurs (field query : string) :
  ci_contains toLowerCase field query = true
  <-> occurs_in toLowerCase query field.
Proof. unfold ci_contains, occurs_in. apply includes_spec. Qed.

Lemma id_points_positive (query : string) (d : Dataset) :
  0 < id_points toLowerCase query d
  <-> ci_contains toLowerCase (id d) query = true.
Proof.
  unfold id_points.
  destruct (ci_equal toLowerCase (id d) query) eqn:E.
  - apply ci_equal_contains in E. rewrite E. split; [trivial|lia].
  - destruct (ci_contains toLowerCase (id d) query); split;
      try lia; try discriminate; trivial.
Qed.

Lemma keyword_points_positive (query kw : string) :
  0 < keyword_points toLowerCase query kw
  <-> ci_contains toLowerCase kw query = true.
Proof.
  unfold keyword_points.
  destruct (ci_equal toLowerCase kw query) eqn:E.
  - apply ci_equal_contains in E. rewrite E. split; [trivial|lia].
  - destruct (ci_contains toLowerCase kw query); split;
      try lia; try discriminate; trivial.
Qed.

Lemma keyword_points_range (query kw : string) :
  0 <= keyword_points toLowerCase query kw <= 40.
Proof.
  unfold keyword_points.
  destruct (ci_equal toLowerCase kw query);
    destruct (ci_contains toLowerCase kw query); lia.
Qed.

Lemma sumZ_positive (f : string -> Z) (l : list string) :
  (forall x, 0 <= f x) ->
  (0 < sumZ (map f l) <-> exists x, In x l /\ 0 < f x).
Proof.
  intros Hf. induction l as [|x l IH].
  - cbn. split; [lia|intros (x & [] & _)].
  - change (sumZ (map f (x :: l))) with (f x + sumZ (map f l)).
    assert (0 <= sumZ (map f l)).
    { apply sumZ_nonneg, Forall_forall. intros z Hz.
      apply in_map_iff in Hz as (y & <- & _). apply Hf. }
    split.
    + intros Hpos. destruct (Z.lt_ge_cases 0 (f x)) as [Hx|Hx].
      * exists x. split; [now left|trivial].
      * destruct (proj1 IH) as (y & Hy & Hfy); [specialize (Hf x); lia|].
        exists y. split; [now right|trivial].
    + intros (y & [->|Hy] & Hfy); [lia|].
      assert (0 < sumZ (map f l)) by (apply IH; eauto).
      specialize (Hf x). lia.
Qed.

Lemma keywords_points_positive (query : string) (d : Dataset) :
  0 < keywords_points toLowerCase query d
  <-> exists ks kw, keywords d = Some ks /\ In kw ks
                    /\ ci_contains toLowerCase kw query = true.
Proof.
  unfold keywords_points. destruct (keywords d) as [ks|].
  - rewrite sumZ_positive by (intros x; apply keyword_points_range).
    split.
    + intros (kw & Hin & Hpos). exists ks, kw.
      repeat split; trivial. now apply keyword_points_positive.
    + intros (ks' & kw & Hks & Hin & Hc). injection Hks as <-.
      exists kw. split; [trivial|]. now apply keyword_points_positive.
  - split; [lia|]. intros (ks & kw & H & _). discriminate H.
Qed.

End MatchFacts.

(** A record scores above 0, and so takes part in the ranking, exactly when
    the lower-cased query occurs in its lower-cased id, name, description or
    one of its keywords. *)
Theorem positive_score_iff_query_occurs :
  forall (toLowerCase : string -> string) (query : string)
         (d : TaggedDataset),
    0 < score_of toLowerCase (toLowerCase query) d
    <-> occurs_in toLowerCase query (id (dataset d))
        \/ occurs_in toLowerCase query (name (dataset d))
        \/ occurs_in toLowerCase query (description (dataset d))
        \/ exists ks kw, keywords (dataset d) = Some ks /\ In kw ks
                         /\ occurs_in toLowerCase query kw.
Proof.
  intros toLowerCase query d. rewrite score_of_spec.
  unfold points, score_spec, other_points.
  pose proof (id_points_positive toLowerCase query (dataset d)) as Hi.
  pose proof (keywords_points_positive toLowerCase query (dataset d)) as Hk.
  pose proof (keywords_points_nonneg toLowerCase query (dataset d)) as Hk0.
  rewrite <- !ci_contains_occurs.
  assert (Hkw : (exists ks kw, keywords (dataset d) = Some ks /\ In kw ks
                               /\ occurs_in toLowerCase query kw)
                <-> 0 < keywords_points toLowerCase query (dataset d)).
  { rewrite Hk. split; intros (ks & kw & H1 & H2 & H3); exists ks, kw;
      repeat split; trivial; now apply ci_contains_occurs. }
  rewrite Hkw. rewrite <- Hi.
  unfold name_points, description_points.
  assert (0 <= id_points toLowerCase query (dataset d)).
  { unfold id_points.
    destruct (ci_equal toLowerCase (id (dataset d)) query);
      destruct (ci_contains toLowerCase (id (dataset d)) query); lia. }
  destruct (ci_contains toLowerCase (name (dataset d)) query);
    destruct (ci_contains toLowerCase (description (dataset d)) query);
    (split;
     [intros Hpos|intros [?|[?|[?|?]]]; try lia; try discriminate]).
  - right. left. reflexivity.
  - right. left. reflexivity.
  - right. right. left. reflexivity.
  - destruct (Z.lt_ge_cases 0 (id_points toLowerCase query (dataset d)));
      [left; trivial|right; right; right; lia].
Qed.

Section LimitFacts.

Variable toLowerCase : string -> string.
Variable index : DatasetsIndex.

Lemma matching_score_of (query : string) (l : list TaggedDataset) :
  matching toLowerCase query l
  = filter (fun d => 0 <? score_of toLowerCase (toLowerCase query) d) l.
Proof.
  unfold matching. apply filter_ext. intros d. now rewrite score_of_spec.
Qed.

Lemma matching_length (query : string) (l : list TaggedDataset) :
  (List.length (matching toLowerCase query l) <= List.length l)%nat.
Proof. unfold matching. apply filter_length_le. Qed.

(** With a limit that covers every candidate, nothing is cut off. *)
Lemma search_untruncated (query : string) (src : option string)
  (limit : option Z) :
  Z.of_nat (List.length (collect index src)) <= or_default limit 10 ->
  sr_datasets (search_datasets toLowerCase index query src limit)
  = JS.Array_sort (by_key_desc (points toLowerCase query))
      (matching toLowerCase query (collect index src)).
Proof.
  intros H. rewrite search_datasets_ranked.
  fold (or_default limit 10).
  rewrite slice_from_0_nonneg by lia.
  apply firstn_all2. rewrite sort_length.
  pose proof (matching_length query (collect index src)). lia.
Qed.

End LimitFacts.

(** When the limit is at least the number of candidate records, the search
    returns every matching record: the result is a rearrangement of the
    candidates that score above 0. *)
Theorem search_with_large_limit_returns_every_match :
  forall (toLowerCase : string -> string) (index : DatasetsIndex)
         (query : string) (src : option string) (limit : option Z),
    Z.of_nat (List.length (collect index src)) <= or_default limit 10 ->
    Permutation
      (sr_datasets (search_datasets toLowerCase index query src limit))
      (filter (fun d => 0 <? score_of toLowerCase (toLowerCase query) d)
         (collect index src))
    /\ (forall d : TaggedDataset,
           In d (sr_datasets
                   (search_datasets toLowerCase index query src limit))
           <-> In d (collect index src)
               /\ 0 < score_of toLowerCase (toLowerCase query) d).
Proof.
  intros toLowerCase index query src limit H.
  rewrite search_untruncated by trivial.
  rewrite <- matching_score_of. split.
  - apply sort_permutation.
  - intros d. rewrite sort_in, matching_score_of, filter_In, Z.ltb_lt.
    reflexivity.
Qed.

Lemma search_with_large_limit_returns_every_match_witness :
  Z.of_nat (List.length (collect Examples.mixed_index None))
  <= or_default None 10
  /\ Permutation
       (sr_datasets
          (search_datasets JS.ascii_toLowerCase Examples.mixed_index "price"
             None None))
       [tag Examples.fuelprice "data_catalogue"].
Proof.
  split; [cbn; lia|].
  destruct (search_with_large_limit_returns_every_match JS.ascii_toLowerCase
              Examples.mixed_index "price" None None) as [H _].
  - cbn. lia.
  - exact H.
Defined.

(** Lowering a non-negative limit only cuts the result short: the result
    for the smaller limit is the beginning of the result for the larger. *)
Theorem search_smaller_limit_is_prefix :
  forall (toLowerCase : string -> string) (index : DatasetsIndex)
         (query : string) (src : option string) (n m : Z),
    0 <= n -> n <= m ->
    sr_datasets (search_datasets toLowerCase index query src (Some n))
    = firstn (Z.to_nat n)
        (sr_datasets (search_datasets toLowerCase index query src (Some m))).
Proof.
  intros toLowerCase index query src n m Hn Hm.
  rewrite !search_datasets_ranked.
  rewrite !slice_from_0_nonneg by lia.
  rewrite firstn_firstn. f_equal. lia.
Qed.

Lemma search_smaller_limit_is_prefix_witness :
  0 <= 1 /\ 1 <= 5
  /\ sr_datasets
       (search_datasets JS.ascii_toLowerCase Examples.mixed_index "" None
          (Some 1))
     = [tag Examples.fuelprice "data_catalogue"].
Proof.
  split; [lia|]. split; [lia|].
  rewrite (search_smaller_limit_is_prefix JS.ascii_toLowerCase
             Examples.mixed_index "" None 1 5); [reflexivity|lia|lia].
Defined.

(** A negative limit is not rejected: [-k] drops the last [k] records of the
    full ranking (the result for a limit that covers every candidate). *)
Theorem search_negative_limit_drops_last :
  forall (toLowerCase : string -> string) (index : DatasetsIndex)
         (query : string) (src : option string) (limit : Z),
    limit < 0 ->
    sr_datasets (search_datasets toLowerCase index query src (Some limit))
    = firstn
        (List.length
           (sr_datasets
              (search_datasets toLowerCase index query src
                 (Some (Z.of_nat (List.length (collect index src))))))
         - Z.to_nat (- limit))
        (sr_datasets
           (search_datasets toLowerCase index query src
              (Some (Z.of_nat (List.length (collect index src)))))).
Proof.
  intros toLowerCase index query src limit Hneg.
  rewrite (search_untruncated toLowerCase index query src
             (Some (Z.of_nat (List.length (collect index src)))))
    by (cbn; lia).
  rewrite search_datasets_ranked, slice_from_0.
  destruct (Z.ltb_spec limit 0); [|lia].
  f_equal. lia.
Qed.

Lemma search_negative_limit_drops_last_witness :
  -2 < 0
  /\ sr_datasets
       (search_datasets JS.ascii_toLowerCase Examples.mixed_index "" None
          (Some (-2)))
     = [tag Examples.fuelprice "data_catalogue"].
Proof.
  split; [lia|].
  rewrite (search_negative_limit_drops_last JS.ascii_toLowerCase
             Examples.mixed_index "" None (-2)); [reflexivity|lia].
Defined.

(** ** The source filter *)

Section SourceFilterFacts.

Variable toLowerCase : string -> string.
Variable index : DatasetsIndex.

Lemma filter_filter_comm {A : Type} (f g : A -> bool) (l : list A) :
  filter f (filter g l) = filter g (filter f l).
Proof.
  induction l as [|x l IH]; [reflexivity|]. cbn [filter].
  destruct (f x) eqn:Ef; destruct (g x) eqn:Eg; cbn [filter];
    rewrite ?Ef, ?Eg, IH; reflexivity.
Qed.

(** A stable sort commutes with taking a sub-selection. *)
Lemma sort_filter {A : Type} (key : A -> Z) (f : A -> bool) (l : list A) :
  JS.Array_sort (by_key_desc key) (filter f l)
  = filter f (JS.Array_sort (by_key_desc key) l).
Proof.
  apply (stable_sort_unique key (filter f l)); [apply sort_stable|].
  split.
  - apply StronglySorted_filter, sort_descending.
  - intros k. rewrite filter_filter_comm.
    rewrite (sort_same_key_order key l k). apply filter_filter_comm.
Qed.

Lemma filter_tagged_map (s t : string) (l : list Dataset) :
  filter (tagged s) (map (fun d => tag d t) l)
  = if (t =? s)%string then map (fun d => tag d t) l else [].
Proof.
  induction l as [|d l IH]; cbn [map filter].
  - now destruct (t =? s)%string.
  - rewrite IH. unfold tagged at 1. cbn [source].
    now destruct (t =? s)%string.
Qed.

(** The candidates under a source filter are the candidates without filter
    that carry that source. *)
Lemma collect_tagged (s : string) :
  s <> ""%string ->
  collect index (Some s) = filter (tagged s) (collect index None).
Proof.
  intros Hs. unfold collect, selects. cbn [JS.truthy negb orb app].
  destruct (String.eqb_spec s "") as [|_]; [contradiction|].
  cbn [negb orb]. rewrite filter_app, !filter_tagged_map.
  rewrite (String.eqb_sym "opendosm"), (String.eqb_sym "data_catalogue").
  destruct (s =? "opendosm")%string; destruct (s =? "data_catalogue")%string;
    cbn [app]; rewrite ?app_nil_r; reflexivity.
Qed.

Lemma collect_source (s : string) (d : TaggedDataset) :
  s <> ""%string -> In d (collect index (Some s)) -> source d = s.
Proof.
  intros Hs Hd. rewrite collect_tagged in Hd by trivial.
  apply filter_In in Hd as [_ Hd]. now apply String.eqb_eq in Hd.
Qed.

Lemma list_datasets_in_collect (src cat : option string)
  (limit offset : option Z) (d : TaggedDataset) :
  In d (lr_datasets (list_datasets toLowerCase index src cat limit offset)) ->
  In d (collect index src).
Proof.
  rewrite list_datasets_window.
  destruct (slice_is_window (or_default offset 0)
              (or_default offset 0 + or_default limit 100)
              (if JS.truthy cat
               then kept_by_category toLowerCase cat (collect index src)
               else collect index src)) as (n & m & ->).
  intros Hd.
  assert (Hk : In d (if JS.truthy cat
                     then kept_by_category toLowerCase cat (collect index src)
                     else collect index src)).
  { rewrite <- (firstn_skipn m). apply in_or_app. right.
    rewrite <- (firstn_skipn n (skipn m _)). apply in_or_app. now left. }
  destruct (JS.truthy cat); [|trivial].
  destruct cat as [c|]; cbn [kept_by_category] in Hk; [|trivial].
  now apply filter_In in Hk.
Qed.

Lemma search_datasets_in_collect (query : string) (src : option string)
  (limit : option Z) (d : TaggedDataset) :
  In d (sr_datasets (search_datasets toLowerCase index query src limit)) ->
  In d (collect index src).
Proof.
  rewrite search_datasets_ranked. intros Hd.
  destruct (slice_from_0_prefix (or_default limit 10)
              (JS.Array_sort (by_key_desc (points toLowerCase query))
                 (matching toLowerCase query (collect index src))))
    as [rest Hrest].
  unfold or_default in Hrest.
  assert (Hin : In d (JS.Array_sort (by_key_desc (points toLowerCase query))
                        (matching toLowerCase query (collect index src)))).
  { rewrite Hrest. apply in_or_app. now left. }
  apply sort_in in Hin. unfold matching in Hin.
  now apply filter_In in Hin.
Qed.

End SourceFilterFacts.

(** With a source filter, every record listed and every record found
    carries that source, and its data is a record of the index: of
    [opendosm] or of [data_catalogue] according to the tag. *)
Theorem source_filter_selects_one_source :
  forall (toLowerCase : string -> string) (index : DatasetsIndex)
         (s : string) (d : TaggedDataset),
    s <> ""%string ->
    (forall (cat : option string) (limit offset : option Z),
        In d (lr_datasets
                (list_datasets toLowerCase index (Some s) cat limit offset)) ->
        source d = s)
    /\ (forall (query : string) (limit : option Z),
           In d (sr_datasets
                   (search_datasets toLowerCase index query (Some s) limit)) ->
           source d = s)
    /\ (In d (collect index (Some s)) ->
        (s = "opendosm"%string /\ In (dataset d) (opendosm index))
        \/ (s = "data_catalogue"%string
            /\ In (dataset d) (data_catalogue index))).
Proof.
  intros toLowerCase index s d Hs. split; [|split].
  - intros cat limit offset Hd.
    apply list_datasets_in_collect in Hd. now apply collect_source in Hd.
  - intros query limit Hd.
    apply search_datasets_in_collect in Hd. now apply collect_source in Hd.
  - unfold collect, selects. cbn [JS.truthy negb orb app].
    destruct (String.eqb_spec s "") as [|_]; [contradiction|].
    cbn [negb orb].
    destruct (String.eqb_spec s "opendosm") as [->|_].
    + cbn. rewrite ?app_nil_r. intros Hd.
      apply in_map_iff in Hd as (x & <- & Hx). left. now split.
    + destruct (String.eqb_spec s "data_catalogue") as [->|_].
      * cbn. intros Hd.
        apply in_map_iff in Hd as (x & <- & Hx). right. now split.
      * intros [].
Qed.

Lemma source_filter_selects_one_source_witness :
  "opendosm"%string <> ""%string
  /\ source (tag Examples.gdp "opendosm") = "opendosm"%string.
Proof.
  split; [discriminate|].
  destruct (source_filter_selects_one_source JS.ascii_toLowerCase
              Examples.mixed_index "opendosm" (tag Examples.gdp "opendosm"))
    as (H & _).
  - discriminate.
  - apply (H None None None). cbn. right. left. reflexivity.
Defined.

(** A source that is neither [opendosm] nor [data_catalogue] is no error
    for the index tools: when it is not the empty string, the listing and
    the search are empty; the empty string is taken for no source filter. *)
Theorem unknown_source_gives_empty_results :
  forall (toLowerCase : string -> string) (index : DatasetsIndex)
         (s : string) (cat : option string) (limit offset : option Z)
         (query : string),
    s <> "opendosm"%string ->
    s <> "data_catalogue"%string ->
    (s <> ""%string ->
     list_datasets toLowerCase index (Some s) cat limit offset
     = mkListResult 0 (or_default limit 100) (or_default offset 0) 0 []
     /\ search_datasets toLowerCase index query (Some s) limit
        = mkSearchResult query 0 [])
    /\ (s = ""%string ->
        list_datasets toLowerCase index (Some s) cat limit offset
        = list_datasets toLowerCase index None cat limit offset
        /\ search_datasets toLowerCase index query (Some s) limit
           = search_datasets toLowerCase index query None limit).
Proof.
  intros toLowerCase index s cat limit offset query H1 H2. split.
  - intros H0.
    assert (Hc : collect index (Some s) = []).
    { unfold collect, selects. cbn [JS.truthy].
      destruct (String.eqb_spec s ""); [contradiction|].
      destruct (String.eqb_spec s "opendosm"); [contradiction|].
      destruct (String.eqb_spec s "data_catalogue"); [contradiction|].
      reflexivity. }
    assert (Hs : forall (A : Type) (a b : Z), JS.slice a b (@nil A) = []).
    { intros A a b. unfold JS.slice. now rewrite skipn_nil, firstn_nil. }
    split.
    + unfold list_datasets. rewrite Hc.
      destruct cat as [c|]; cbn [JS.truthy];
        [destruct (negb (c =? "")%string); cbn [filter]|];
        rewrite Hs; reflexivity.
    + unfold search_datasets. rewrite Hc. cbn. now rewrite Hs.
  - intros ->. split; reflexivity.
Qed.

Lemma unknown_source_gives_empty_results_witness :
  lr_total
    (list_datasets JS.ascii_toLowerCase Examples.mixed_index (Some "dosm")
       None None None)
  = 0.
Proof.
  destruct (unknown_source_gives_empty_results JS.ascii_toLowerCase
              Examples.mixed_index "dosm" None None None "gdp") as [H _];
    [discriminate ..|].
  destruct H as [H _]; [discriminate|].
  rewrite H. reflexivity.
Defined.

(** Searching one source gives what searching both sources gives, restricted
    to the records of that source and in the same order (for a limit that
    covers every candidate, so that nothing is cut off). *)
Theorem search_one_source_is_restriction :
  forall (toLowerCase : string -> string) (index : DatasetsIndex)
         (query s : string) (limit : option Z),
    s <> ""%string ->
    Z.of_nat (List.length (collect index None)) <= or_default limit 10 ->
    sr_datasets (search_datasets toLowerCase index query (Some s) limit)
    = filter (tagged s)
        (sr_datasets (search_datasets toLowerCase index query None limit)).
Proof.
  intros toLowerCase index query s limit Hs Hlimit.
  assert (Hlen : (List.length (collect index (Some s))
                  <= List.length (collect index None))%nat).
  { rewrite collect_tagged by trivial. apply filter_length_le. }
  rewrite !search_untruncated by lia.
  rewrite collect_tagged by trivial.
  unfold matching. rewrite filter_filter_comm. apply sort_filter.
Qed.

Lemma search_one_source_is_restriction_witness :
  sr_datasets
    (search_datasets JS.ascii_toLowerCase Examples.mixed_index "inflation"
       (Some "data_catalogue") None)
  = [tag Examples.fuelprice "data_catalogue"].
Proof.
  rewrite (search_one_source_is_restriction JS.ascii_toLowerCase
             Examples.mixed_index "inflation" "data_catalogue" None).
  - reflexivity.
  - discriminate.
  - cbn. lia.
Defined.

Section PaginationFacts.

Context {A : Type}.

Lemma firstn_add (a b : nat) (l : list A) :
  firstn (a + b) l = firstn a l ++ firstn b (skipn a l).
Proof.
  revert l. induction a as [|a IH]; intros l; [reflexivity|].
  destruct l as [|x l]; cbn.
  - now rewrite firstn_nil.
  - now rewrite IH.
Qed.

Lemma skipn_add (a b : nat) (l : list A) :
  skipn (a + b) l = skipn b (skipn a l).
Proof.
  revert l. induction a as [|a IH]; intros l; [reflexivity|].
  destruct l as [|x l]; cbn; [now rewrite skipn_nil|apply IH].
Qed.

End PaginationFacts.

(** Pages fit together: for non-negative offset and limits, the page of
    [a] records at [offset] followed by the page of [b] records at
    [offset + a] is the page of [a + b] records at [offset]; all three
    report the same total. This holds for every source and category
    filter. *)
Theorem list_pages_concatenate :
  forall (toLowerCase : string -> string) (index : DatasetsIndex)
         (src cat : option string) (offset a b : Z),
    0 <= offset -> 0 <= a -> 0 <= b ->
    lr_datasets
      (list_datasets toLowerCase index src cat (Some a) (Some offset))
    ++ lr_datasets
         (list_datasets toLowerCase index src cat (Some b) (Some (offset + a)))
    = lr_datasets
        (list_datasets toLowerCase index src cat (Some (a + b)) (Some offset))
    /\ lr_total
         (list_datasets toLowerCase index src cat (Some a) (Some offset))
       = lr_total
           (list_datasets toLowerCase index src cat (Some b)
              (Some (offset + a))).
Proof.
  intros toLowerCase index src cat offset a b Ho Ha Hb.
  split; [|now rewrite !list_datasets_total].
  rewrite !list_datasets_window. cbn [or_default].
  rewrite !slice_window by lia.
  rewrite !Z2Nat.inj_add by lia.
  now rewrite firstn_add, skipn_add.
Qed.

Lemma list_pages_concatenate_witness :
  lr_datasets
    (list_datasets JS.ascii_toLowerCase Examples.mixed_index None None
       (Some 1) (Some 1))
  ++ lr_datasets
       (list_datasets JS.ascii_toLowerCase Examples.mixed_index None None
          (Some 5) (Some 2))
  = [tag Examples.gdp "opendosm"; tag Examples.fuelprice "data_catalogue"].
Proof.
  change 2 with (1 + 1).
  rewrite (proj1 (list_pages_concatenate JS.ascii_toLowerCase
                    Examples.mixed_index None None 1 1 5
                    ltac:(lia) ltac:(lia) ltac:(lia))).
  reflexivity.
Defined.

(** The [count] field: for non-negative limit and offset it is the number
    of records left after the offset, capped by the limit; it never exceeds
    the limit nor the total. *)
Theorem list_count_formula :
  forall (toLowerCase : string -> string) (index : DatasetsIndex)
         (src cat : option string) (limit offset : option Z),
    0 <= or_default limit 100 ->
    0 <= or_default offset 0 ->
    lr_count (list_datasets toLowerCase index src cat limit offset)
    = Z.max 0
        (Z.min (or_default limit 100)
           (lr_total (list_datasets toLowerCase index src cat limit offset)
            - or_default offset 0))
    /\ lr_limit (list_datasets toLowerCase index src cat limit offset)
       = or_default limit 100
    /\ lr_offset (list_datasets toLowerCase index src cat limit offset)
       = or_default offset 0.
Proof.
  intros toLowerCase index src cat limit offset Hl Ho.
  split; [|split; reflexivity].
  change (lr_count (list_datasets toLowerCase index src cat limit offset))
    with (Z.of_nat
            (List.length
               (lr_datasets
                  (list_datasets toLowerCase index src cat limit offset)))).
  rewrite list_datasets_window, list_datasets_total.
  rewrite slice_window by trivial.
  rewrite length_firstn, length_skipn. lia.
Qed.

Lemma list_count_formula_witness :
  lr_count
    (list_datasets JS.ascii_toLowerCase Examples.mixed_index None None
       (Some 5) (Some 2))
  = 1.
Proof.
  destruct (list_count_formula JS.ascii_toLowerCase Examples.mixed_index
              None None (Some 5) (Some 2)) as (H & _).
  - cbn. lia.
  - cbn. lia.
  - rewrite H. reflexivity.
Defined.

(** The totals of the two sources add up to the total without source
    filter, for every category filter. *)
Theorem list_totals_add_up :
  forall (toLowerCase : string -> string) (index : DatasetsIndex)
         (cat : option string) (limit offset : option Z),
    lr_total (list_datasets toLowerCase index None cat limit offset)
    = lr_total
        (list_datasets toLowerCase index (Some "opendosm") cat limit offset)
      + lr_total
          (list_datasets toLowerCase index (Some "data_catalogue") cat limit
             offset).
Proof.
  intros toLowerCase index cat limit offset.
  rewrite !list_datasets_total.
  assert (Hc : collect index None
               = collect index (Some "opendosm")
                 ++ collect index (Some "data_catalogue")).
  { unfold collect, selects. cbn. now rewrite ?app_nil_r. }
  rewrite Hc.
  destruct (JS.truthy cat); [|rewrite length_app; lia].
  destruct cat as [c|]; cbn [kept_by_category];
    rewrite ?filter_app, length_app; lia.
Qed.

(** ** Score bounds *)

(** A score is never negative and is at most 140 plus 40 per keyword of the
    record; a record whose id equals the query scores at least 100, any
    other record at most 90 plus 40 per keyword. *)
Theorem score_bounds :
  forall (toLowerCase : string -> string) (queryLower : string)
         (d : TaggedDataset),
    0 <= score_of toLowerCase queryLower d
    <= 140 + 40 * Z.of_nat
                    (List.length
                       match keywords (dataset d) with
                       | Some ks => ks
                       | None => []
                       end)
    /\ ((queryLower =? toLowerCase (id (dataset d)))%string = true ->
        100 <= score_of toLowerCase queryLower d)
    /\ ((queryLower =? toLowerCase (id (dataset d)))%string = false ->
        score_of toLowerCase queryLower d
        <= 90 + 40 * Z.of_nat
                      (List.length
                         match keywords (dataset d) with
                         | Some ks => ks
                         | None => []
                         end)).
Proof.
  intros toLowerCase queryLower d.
  assert (Hloop : forall ks score,
             score <= fold_left (keyword_step toLowerCase queryLower) ks score
             <= score + 40 * Z.of_nat (List.length ks)).
  { induction ks as [|kw ks IH]; intros score; [cbn; lia|].
    cbn [fold_left List.length].
    specialize (IH (keyword_step toLowerCase queryLower score kw)).
    unfold keyword_step in *.
    destruct (queryLower =? toLowerCase kw)%string;
      [|destruct (JS.includes (toLowerCase kw) queryLower)]; lia. }
  unfold score_of.
  set (ks := match keywords (dataset d) with Some ks => ks | None => [] end).
  destruct (queryLower =? toLowerCase (id (dataset d)))%string;
    destruct (JS.includes (toLowerCase (id (dataset d))) queryLower);
    destruct (JS.includes (toLowerCase (name (dataset d))) queryLower);
    destruct (JS.includes (toLowerCase (description (dataset d))) queryLower);
    match goal with
    | |- context [fold_left _ ks ?s] => pose proof (Hloop ks s)
    end;
    repeat split; intros; try discriminate; lia.
Qed.

(** ** Further properties of the client and of the handler *)

Section RequestFacts.

Import Client.

(** A query issues its request exactly once, whatever the outcome. *)
Lemma query_issues_one_request (base label datasetId : string)
  (options : QueryOptions) (w : World) (log : list Request) :
  exists outcome,
    query base label datasetId options w log
    = (outcome,
       log ++ [mkRequest base (build_params datasetId options)
                 "application/json"]).
Proof.
  unfold query, bind, fetch.
  destruct (w log _) as [message|response]; [eexists; reflexivity|].
  destruct (negb (ok response)); [eexists; reflexivity|].
  destruct (json response); eexists; reflexivity.
Qed.

Lemma build_params_head (datasetId : string) (options : QueryOptions) :
  hd_error (build_params datasetId options) = Some ("id", datasetId).
Proof.
  rewrite build_params_filters. unfold build_params.
  cbn [filters limit offset metaOnly].
  destruct (metaOnly options) as [[|]|]; reflexivity.
Qed.

End RequestFacts.




Section HandlerRequestFacts.

Import Client.

Variable toLowerCase : string -> string.
Variable index : DatasetsIndex.
Variable JSON_parse : string -> string + JS.JSValue.

Lemma query_requests (u : Upstream) (datasetId : string)
  (options : QueryOptions) (w : World) (log : list Request) :
  exists outcome rq,
    query_method u datasetId options w log = (outcome, log ++ [rq])
    /\ upstream_request datasetId rq.
Proof.
  destruct u; unfold query_method, queryOpenDOSM, queryDataCatalogue.
  - destruct (query_issues_one_request OPENDOSM_BASE_URL "OpenDOSM"
                datasetId options w log) as [outcome H].
    eexists outcome, _. split; [exact H|].
    split; [now left|]. split; [reflexivity|apply build_params_head].
  - destruct (query_issues_one_request DATA_CATALOGUE_BASE_URL
                "Data Catalogue" datasetId options w log) as [outcome H].
    eexists outcome, _. split; [exact H|].
    split; [now right|]. split; [reflexivity|apply build_params_head].
Qed.

(** A query tool: the filters are parsed, then one query is made. *)
Lemma query_tool_requests (u : Upstream) (args : ToolArgs) (w : World)
  (log : list Request) (limit offset : Z) :
  exists new,
    snd ((filterDict <- parse_filters JSON_parse (arg_filters args) ;;
          data <- query_method u (arg_dataset_id args)
                    (mkOptions filterDict (Some limit) (Some offset) None) ;;
          ret (Data data)) w log)
    = log ++ new
    /\ (List.length new <= 1)%nat
    /\ Forall (upstream_request (arg_dataset_id args)) new.
Proof.
  unfold bind at 1.
  assert (Hnone : exists p, parse_filters JSON_parse (arg_filters args) w log
                            = (p, log)).
  { unfold parse_filters.
    destruct (arg_filters args) as [text|]; [|eexists; reflexivity].
    destruct (JS.truthy (Some text)); [|eexists; reflexivity].
    destruct (JSON_parse text); eexists; reflexivity. }
  destruct Hnone as [[message|filterDict] ->].
  - exists []. cbn. rewrite app_nil_r. repeat split; [lia|constructor].
  - unfold bind.
    destruct (query_requests u (arg_dataset_id args)
                (mkOptions filterDict (Some limit) (Some offset) None) w log)
      as (outcome & rq & -> & Hrq).
    exists [rq].
    destruct outcome; cbn; (split; [reflexivity|]);
      (split; [lia|constructor; [exact Hrq|constructor]]).
Qed.

End HandlerRequestFacts.

(** The requests of a call that has an [arguments] object. *)
Lemma call_tool_requests :
  forall (toLowerCase : string -> string) (index : DatasetsIndex)
         (JSON_parse : string -> string + JS.JSValue)
         (name : string) (args : ToolArgs)
         (w : Client.World) (log : list Client.Request),
    exists new : list Client.Request,
      snd (call_tool toLowerCase index JSON_parse name args w log)
      = log ++ new
      /\ (List.length new <= 2)%nat
      /\ Forall (upstream_request (arg_dataset_id args)) new
      /\ (name <> "get_dataset_schema"%string -> (List.length new <= 1)%nat)
      /\ (name = "list_datasets"%string \/ name = "search_datasets"%string ->
          new = []).
Proof.
  intros toLowerCase index JSON_parse name args w log.
  assert (Hsnd : snd (call_tool toLowerCase index JSON_parse name args w log)
                 = snd (handle toLowerCase index JSON_parse name args w log)).
  { unfold call_tool.
    now destruct (handle toLowerCase index JSON_parse name args w log)
      as [[e|p] l]. }
  rewrite Hsnd. clear Hsnd. unfold handle.
  destruct (String.eqb_spec name "query_opendosm") as [->|N1].
  { destruct (query_tool_requests JSON_parse OpenDOSM args w log
                (or_default (arg_limit args) 100)
                (or_default (arg_offset args) 0)) as (new & H & Hlen & Hall).
    exists new. split; [exact H|]. split; [lia|]. split; [exact Hall|].
    split; [intros _; exact Hlen|]. intros [E|E]; discriminate E. }
  destruct (String.eqb_spec name "query_data_catalogue") as [->|N2].
  { destruct (query_tool_requests JSON_parse DataCatalogue args w log
                (or_default (arg_limit args) 100)
                (or_default (arg_offset args) 0)) as (new & H & Hlen & Hall).
    exists new. split; [exact H|]. split; [lia|]. split; [exact Hall|].
    split; [intros _; exact Hlen|]. intros [E|E]; discriminate E. }
  destruct (String.eqb_spec name "get_dataset_metadata") as [->|N3].
  { unfold Client.bind.
    destruct (source_is (arg_source args) "opendosm");
      [|destruct (source_is (arg_source args) "data_catalogue")].
    - destruct (query_requests OpenDOSM (arg_dataset_id args)
                  (Client.mkOptions None None None (Some true)) w log)
        as (outcome & rq & H & Hrq).
      cbn [query_method] in H. rewrite H. exists [rq].
      destruct outcome; cbn; (split; [reflexivity|]);
        (split; [lia|]); (split; [constructor; [exact Hrq|constructor]|]);
        (split; [intros _; lia|intros [E|E]; discriminate E]).
    - destruct (query_requests DataCatalogue (arg_dataset_id args)
                  (Client.mkOptions None None None (Some true)) w log)
        as (outcome & rq & H & Hrq).
      cbn [query_method] in H. rewrite H. exists [rq].
      destruct outcome; cbn; (split; [reflexivity|]);
        (split; [lia|]); (split; [constructor; [exact Hrq|constructor]|]);
        (split; [intros _; lia|intros [E|E]; discriminate E]).
    - exists []. cbn. rewrite app_nil_r. split; [reflexivity|].
      split; [lia|]. split; [constructor|].
      split; [intros _; lia|intros [E|E]; discriminate E]. }
  destruct (String.eqb_spec name "list_datasets") as [->|N4].
  { exists []. cbn [Client.ret snd]. rewrite app_nil_r.
    split; [reflexivity|]. split; [cbn; lia|]. split; [constructor|].
    split; [intros _; cbn; lia|]. intros _. reflexivity. }
  destruct (String.eqb_spec name "search_datasets") as [->|N5].
  { exists []. cbn [Client.ret snd]. rewrite app_nil_r.
    split; [reflexivity|]. split; [cbn; lia|]. split; [constructor|].
    split; [intros _; cbn; lia|]. intros _. reflexivity. }
  destruct (String.eqb_spec name "get_dataset_schema") as [->|N6].
  { unfold Client.bind.
    destruct (source_is (arg_source args) "opendosm");
      [|destruct (source_is (arg_source args) "data_catalogue")].
    - destruct (query_requests OpenDOSM (arg_dataset_id args)
                  (Client.mkOptions None None None (Some true)) w log)
        as ([e|metadata] & rq & H & Hrq); cbn [query_method] in H;
        rewrite H.
      + exists [rq]. cbn. split; [reflexivity|]. split; [lia|].
        split; [constructor; [exact Hrq|constructor]|].
        split; [intros N; now elim N|intros [E|E]; discriminate E].
      + destruct (query_requests OpenDOSM (arg_dataset_id args)
                    (Client.mkOptions None (Some 3) None None) w
                    (log ++ [rq]))
          as (outcome & rq2 & H2 & Hrq2); cbn [query_method] in H2;
          rewrite H2.
        exists [rq; rq2].
        destruct outcome; cbn; rewrite <- app_assoc;
          (split; [reflexivity|]); (split; [lia|]);
          (split; [constructor; [exact Hrq|constructor;
                                   [exact Hrq2|constructor]]|]);
          (split; [intros N; now elim N|intros [E|E]; discriminate E]).
    - destruct (query_requests DataCatalogue (arg_dataset_id args)
                  (Client.mkOptions None None None (Some true)) w log)
        as ([e|metadata] & rq & H & Hrq); cbn [query_method] in H;
        rewrite H.
      + exists [rq]. cbn. split; [reflexivity|]. split; [lia|].
        split; [constructor; [exact Hrq|constructor]|].
        split; [intros N; now elim N|intros [E|E]; discriminate E].
      + destruct (query_requests DataCatalogue (arg_dataset_id args)
                    (Client.mkOptions None (Some 3) None None) w
                    (log ++ [rq]))
          as (outcome & rq2 & H2 & Hrq2); cbn [query_method] in H2;
          rewrite H2.
        exists [rq; rq2].
        destruct outcome; cbn; rewrite <- app_assoc;
          (split; [reflexivity|]); (split; [lia|]);
          (split; [constructor; [exact Hrq|constructor;
                                   [exact Hrq2|constructor]]|]);
          (split; [intros N; now elim N|intros [E|E]; discriminate E]).
    - exists []. cbn. rewrite app_nil_r. split; [reflexivity|].
      split; [lia|]. split; [constructor|].
      split; [intros _; lia|intros [E|E]; discriminate E]. }
  exists []. cbn. rewrite app_nil_r. split; [reflexivity|].
  split; [lia|]. split; [constructor|].
  split; [intros _; lia|intros [E|E]; contradiction].
Qed.

(** Every tool call, with or without an [arguments] member, issues at most
    two requests, and only [get_dataset_schema] can issue two; earlier
    requests are kept; each request goes to one of the two base URLs,
    accepts JSON and has the dataset id as first parameter;
    [list_datasets] and [search_datasets] issue no request; and a call
    without [arguments] issues none and is answered with an error. *)
Theorem tool_call_requests :
  forall (toLowerCase : string -> string) (index : DatasetsIndex)
         (JSON_parse : string -> string + JS.JSValue)
         (cannot_destructure : string -> string)
         (name : string) (arguments : option ToolArgs)
         (w : Client.World) (log : list Client.Request),
    exists new : list Client.Request,
      snd (call_tool_request toLowerCase index JSON_parse cannot_destructure
             name arguments w log)
      = log ++ new
      /\ (List.length new <= 2)%nat
      /\ (forall args : ToolArgs,
             arguments = Some args ->
             Forall (upstream_request (arg_dataset_id args)) new)
      /\ (name <> "get_dataset_schema"%string -> (List.length new <= 1)%nat)
      /\ (name = "list_datasets"%string \/ name = "search_datasets"%string ->
          new = [])
      /\ (arguments = None ->
          new = []
          /\ exists error : string,
               fst (call_tool_request toLowerCase index JSON_parse
                      cannot_destructure name arguments w log)
               = inr (error, name)).
Proof.
  intros toLowerCase index JSON_parse cannot_destructure name arguments w
    log.
  destruct arguments as [args|].
  - destruct (call_tool_requests toLowerCase index JSON_parse name args w log)
      as (new & Hlog & Hlen & Hall & Hone & Hnone).
    exists new. cbn [call_tool_request snd].
    split; [exact Hlog|]. split; [exact Hlen|].
    split; [intros args' H; now injection H as <-|].
    split; [exact Hone|]. split; [exact Hnone|].
    intros H. discriminate H.
  - exists []. cbn [call_tool_request snd fst]. rewrite app_nil_r.
    split; [reflexivity|]. split; [cbn; lia|].
    split; [intros args H; discriminate H|].
    split; [intros _; cbn; lia|]. split; [reflexivity|].
    intros _. split; [reflexivity|]. eexists. reflexivity.
Qed.

(** The [filters] argument of the two query tools: the empty string is
    treated as no filters, without parsing; a text that [JSON.parse] rejects
    is reported as an error with the message of the parser, before any
    request is made. *)
Theorem filters_argument_handling :
  forall (toLowerCase : string -> string) (index : DatasetsIndex)
         (JSON_parse : string -> string + JS.JSValue)
         (name : string) (args : ToolArgs)
         (w : Client.World) (log : list Client.Request),
    name = "query_opendosm"%string \/ name = "query_data_catalogue"%string ->
    (arg_filters args = Some ""%string ->
     handle toLowerCase index JSON_parse name args w log
     = handle toLowerCase index JSON_parse name
         (mkArgs (arg_dataset_id args) None (arg_limit args)
            (arg_offset args) (arg_source args) (arg_category args)
            (arg_query args))
         w log)
    /\ (forall text message : string,
           arg_filters args = Some text -> text <> ""%string ->
           JSON_parse text = inl message ->
           call_tool toLowerCase index JSON_parse name args w log
           = (mkToolResult (Failure message name args) true, log)).
Proof.
  intros toLowerCase index JSON_parse name args w log Hname. split.
  - intros H.
    destruct Hname as [-> | ->]; unfold handle;
      cbn [String.eqb Ascii.eqb Bool.eqb arg_filters arg_limit arg_offset
             arg_dataset_id];
      rewrite H; reflexivity.
  - intros text message H Hne Hparse.
    assert (Hp : parse_filters JSON_parse (arg_filters args)
                 = Client.throw message).
    { unfold parse_filters. rewrite H.
      cbn [JS.truthy]. destruct (String.eqb_spec text ""); [contradiction|].
      cbn [negb]. now rewrite Hparse. }
    destruct Hname as [-> | ->]; unfold call_tool, handle;
      cbn [String.eqb Ascii.eqb Bool.eqb]; rewrite Hp; reflexivity.
Qed.

Lemma filters_argument_handling_witness :
  call_tool JS.ascii_toLowerCase Examples.mixed_index Examples.parse_example
    "query_opendosm"
    (mkArgs "gdp" (Some "{date:") None None None None "")
    Examples.failing_upstream []
  = (mkToolResult
       (Failure "Unexpected token" "query_opendosm"
          (mkArgs "gdp" (Some "{date:") None None None None ""))
       true, []).
Proof.
  destruct (filters_argument_handling JS.ascii_toLowerCase
              Examples.mixed_index Examples.parse_example "query_opendosm"
              (mkArgs "gdp" (Some "{date:") None None None None "")
              Examples.failing_upstream []) as [_ H]; [now left|].
  apply (H "{date:"%string); [reflexivity|discriminate|reflexivity].
Defined.

(** [get_dataset_metadata] with a valid source makes exactly one request,
    to the base URL of that source, with the parameters [id] and
    [meta_only=true] and nothing else. *)
Theorem metadata_tool_request :
  forall (toLowerCase : string -> string) (index : DatasetsIndex)
         (JSON_parse : string -> string + JS.JSValue)
         (u : Upstream) (args : ToolArgs)
         (w : Client.World) (log : list Client.Request),
    arg_source args = Some (source_name u) ->
    snd (call_tool toLowerCase index JSON_parse "get_dataset_metadata" args
           w log)
    = log ++ [Client.mkRequest (base_url u)
                [("id", arg_dataset_id args); ("meta_only", "true")]
                "application/json"].
Proof.
  intros toLowerCase index JSON_parse u args w log Hsrc.
  unfold call_tool, handle. cbn [String.eqb Ascii.eqb Bool.eqb].
  rewrite Hsrc. unfold Client.bind.
  destruct u; cbn [source_is source_name String.eqb Ascii.eqb Bool.eqb].
  - destruct (query_issues_one_request Client.OPENDOSM_BASE_URL "OpenDOSM"
                (arg_dataset_id args)
                (Client.mkOptions None None None (Some true)) w log)
      as [outcome H].
    unfold Client.queryOpenDOSM. rewrite H. now destruct outcome.
  - destruct (query_issues_one_request Client.DATA_CATALOGUE_BASE_URL
                "Data Catalogue" (arg_dataset_id args)
                (Client.mkOptions None None None (Some true)) w log)
      as [outcome H].
    unfold Client.queryDataCatalogue. rewrite H. now destruct outcome.
Qed.

Lemma metadata_tool_request_witness :
  snd (call_tool JS.ascii_toLowerCase Examples.gdp_index
         Examples.parse_example "get_dataset_metadata" Examples.schema_args
         Examples.failing_upstream [])
  = [Client.mkRequest "https://api.data.gov.my/data-catalogue"
       [("id", "fuelprice"); ("meta_only", "true")] "application/json"].
Proof.
  apply (metadata_tool_request JS.ascii_toLowerCase Examples.gdp_index
           Examples.parse_example DataCatalogue Examples.schema_args
           Examples.failing_upstream []).
  reflexivity.
Defined.

(** [get_dataset_schema] begins like [get_dataset_metadata]: when the
    metadata call fails, the schema call fails with the same error after the
    same requests, and the sample is not fetched; when it succeeds, a
    successful schema result carries the same metadata. *)
Theorem schema_starts_with_metadata :
  forall (toLowerCase : string -> string) (index : DatasetsIndex)
         (JSON_parse : string -> string + JS.JSValue)
         (args : ToolArgs) (w : Client.World)
         (log log' : list Client.Request),
    (forall errorMessage : string,
        handle toLowerCase index JSON_parse "get_dataset_metadata" args w log
        = (inl errorMessage, log') ->
        call_tool toLowerCase index JSON_parse "get_dataset_schema" args w log
        = (mkToolResult (Failure errorMessage "get_dataset_schema" args) true,
           log'))
    /\ (forall (metadata : JS.JSValue) (payload : ToolPayload)
               (log'' : list Client.Request),
           handle toLowerCase index JSON_parse "get_dataset_metadata" args w
             log
           = (inr (Data metadata), log') ->
           handle toLowerCase index JSON_parse "get_dataset_schema" args w log
           = (inr payload, log'') ->
           exists result : SchemaResult,
             payload = Schema result /\ sc_metadata result = metadata
             /\ sc_dataset_id result = arg_dataset_id args
             /\ sc_source result = arg_source args).
Proof.
  intros toLowerCase index JSON_parse args w log log'.
  unfold call_tool, handle. cbn [String.eqb Ascii.eqb Bool.eqb].
  unfold Client.bind.
  set (first_step :=
         if source_is (arg_source args) "opendosm"
         then Client.queryOpenDOSM (arg_dataset_id args)
                (Client.mkOptions None None None (Some true))
         else if source_is (arg_source args) "data_catalogue"
              then Client.queryDataCatalogue (arg_dataset_id args)
                     (Client.mkOptions None None None (Some true))
              else Client.throw invalid_source).
  destruct (first_step w log) as [[e|m] l1]; split.
  - intros errorMessage H. now injection H as -> ->.
  - intros metadata payload log'' H. discriminate H.
  - intros errorMessage H. discriminate H.
  - intros metadata payload log'' H Hs. cbn in H. injection H as -> ->.
    destruct ((if source_is (arg_source args) "opendosm"
               then Client.queryOpenDOSM (arg_dataset_id args)
                      (Client.mkOptions None (Some 3) None None)
               else Client.queryDataCatalogue (arg_dataset_id args)
                      (Client.mkOptions None (Some 3) None None)) w log')
      as [[e|sample] l2]; [discriminate Hs|].
    cbn in Hs. injection Hs as <- _. eexists. repeat split.
Qed.

(** ** The tool table and the dispatch *)

Lemma known_tool_listed (name : string) :
  known_tool name = true <-> In name (map tool_name list_tools).
Proof.
  unfold known_tool, tool_names. rewrite existsb_exists. cbn [map list_tools
    tool_name]. split.
  - intros (x & Hx & He). apply String.eqb_eq in He. now subst.
  - intros H. exists name. split; [exact H|apply String.eqb_refl].
Qed.

(** The tools advertised by the tool table are exactly the names the
    handler serves: a call of an advertised tool can succeed, and a call of
    any other name is always an error. *)
Theorem advertised_tools_are_the_served_ones :
  forall (toLowerCase : string -> string) (index : DatasetsIndex)
         (JSON_parse : string -> string + JS.JSValue) (name : string),
    In name (map tool_name list_tools)
    <-> exists (args : ToolArgs) (w : Client.World)
               (log : list Client.Request),
          isError
            (fst (call_tool toLowerCase index JSON_parse name args w log))
          = false.
Proof.
  intros toLowerCase index JSON_parse name. split.
  - intros H.
    exists (mkArgs "gdp" None None None (Some "opendosm") None "gdp"),
      (Examples.upstream JS.JNull JS.JNull), [].
    cbn [map list_tools tool_name] in H.
    repeat (destruct H as [<-|H]; [reflexivity|]). destruct H.
  - intros (args & w & log & H).
    apply known_tool_listed.
    destruct (known_tool name) eqn:E; [reflexivity|].
    unfold call_tool in H. rewrite handle_unknown in H by exact E.
    discriminate H.
Qed.

(** Filling in the declared defaults does not change what the [switch]
    does. *)
Lemma handle_with_declared_defaults (toLowerCase : string -> string)
  (index : DatasetsIndex) (JSON_parse : string -> string + JS.JSValue)
  (t : Tool) (args : ToolArgs) (w : Client.World)
  (log : list Client.Request) :
  In t list_tools ->
  handle toLowerCase index JSON_parse (tool_name t) args w log
  = handle toLowerCase index JSON_parse (tool_name t)
      (with_declared_defaults t args) w log.
Proof.
  intros H.
  destruct args as [dataset_id filters limit offset src cat query].
  unfold list_tools in H.
  repeat (destruct H as [<-|H];
          [destruct limit, offset; reflexivity|]).
  destruct H.
Qed.

(** The defaults declared in the tool table are the defaults the handler
    applies: for every advertised tool and every call with an [arguments]
    object, leaving out [limit] or [offset] gives the same requests and the
    same result as the call with the declared defaults filled in; an error
    result differs at most in the arguments it echoes. *)
Theorem declared_defaults_are_applied :
  forall (toLowerCase : string -> string) (index : DatasetsIndex)
         (JSON_parse : string -> string + JS.JSValue)
         (t : Tool) (args : ToolArgs)
         (w : Client.World) (log : list Client.Request),
    In t list_tools ->
    same_outcome
      (fst (call_tool toLowerCase index JSON_parse (tool_name t) args w log))
      (fst (call_tool toLowerCase index JSON_parse (tool_name t)
              (with_declared_defaults t args) w log))
    /\ snd (call_tool toLowerCase index JSON_parse (tool_name t) args w log)
       = snd (call_tool toLowerCase index JSON_parse (tool_name t)
                (with_declared_defaults t args) w log).
Proof.
  intros toLowerCase index JSON_parse t args w log H.
  unfold call_tool.
  rewrite <- (handle_with_declared_defaults toLowerCase index JSON_parse t
                args w log H).
  destruct (handle toLowerCase index JSON_parse (tool_name t) args w log)
    as [[e|payload] log']; cbn.
  - split; [|reflexivity]. split; [reflexivity|]. now split.
  - split; [|reflexivity]. split; [reflexivity|]. now destruct payload.
Qed.

Lemma declared_defaults_are_applied_witness :
  fst (call_tool JS.ascii_toLowerCase Examples.mixed_index
         Examples.parse_example "search_datasets"
         (mkArgs "" None None None None None "fuel")
         Examples.failing_upstream [])
  = fst (call_tool JS.ascii_toLowerCase Examples.mixed_index
           Examples.parse_example "search_datasets"
           (mkArgs "" None (Some 10) None None None "fuel")
           Examples.failing_upstream []).
Proof.
  destruct (declared_defaults_are_applied JS.ascii_toLowerCase
              Examples.mixed_index Examples.parse_example
              (mkTool "search_datasets" "Search for datasets by keyword"
                 [ mkProperty "query" "string" None [];
                   mkProperty "source" "string" None
                     ["opendosm"; "data_catalogue"];
                   mkProperty "limit" "number" (Some 10) [] ]
                 ["query"])
              (mkArgs "" None None None None None "fuel")
              Examples.failing_upstream []) as [_ _].
  - cbn. do 4 right. left. reflexivity.
  - reflexivity.
Defined.

(** ** The resources *)

Lemma push_lines (f : Dataset -> string) (l : list Dataset)
  (popular : list string) :
  fold_left (fun popular d => popular ++ [f d]) l popular
  = popular ++ map f l.
Proof.
  revert popular. induction l as [|d l IH]; intros popular; cbn.
  - now rewrite app_nil_r.
  - rewrite IH. now rewrite <- app_assoc.
Qed.

(** The resources that are listed are the resources that can be read: a
    listed uri gives one content item with that uri and the listed MIME
    type, and any other uri throws "Unknown resource: <uri>". *)
Theorem listed_resources_are_the_readable_ones :
  forall (index : DatasetsIndex) (uri : string),
    (forall r : Resource,
        In r list_resources ->
        exists text : string,
          read_resource index (res_uri r)
          = inr [mkContents (res_uri r) (res_mimeType r) text])
    /\ (~ In uri (map res_uri list_resources) ->
        read_resource index uri = inl ("Unknown resource: " ++ uri)%string).
Proof.
  intros index uri. split.
  - intros r H. unfold list_resources in H.
    repeat (destruct H as [<-|H]; [eexists; reflexivity|]). destruct H.
  - intros H. cbn [map list_resources res_uri In] in H.
    unfold read_resource.
    destruct (String.eqb_spec uri "dataset://opendosm/all") as [->|_];
      [exfalso; apply H; auto|].
    destruct (String.eqb_spec uri "dataset://data-catalogue/all") as [->|_];
      [exfalso; apply H; auto|].
    destruct (String.eqb_spec uri "dataset://popular") as [->|_];
      [exfalso; apply H; auto|].
    reflexivity.
Qed.

(** The popular resource lists the first ten records of [opendosm] followed
    by the first ten of [data_catalogue]: at most twenty lines, fewer only
    when a source has fewer than ten records. *)
Theorem popular_lists_first_ten_of_each_source :
  forall index : DatasetsIndex,
    popular_lines index
    = map (fun d => ("- **" ++ id d ++ "** (OpenDOSM): " ++ name d)%string)
        (firstn 10 (opendosm index))
      ++ map (fun d =>
                ("- **" ++ id d ++ "** (Data Catalogue): " ++ name d)%string)
           (firstn 10 (data_catalogue index))
    /\ List.length (popular_lines index)
       = (Nat.min 10 (List.length (opendosm index))
          + Nat.min 10 (List.length (data_catalogue index)))%nat
    /\ (List.length (popular_lines index) <= 20)%nat.
Proof.
  intros index.
  assert (H : popular_lines index
              = map (fun d =>
                       ("- **" ++ id d ++ "** (OpenDOSM): " ++ name d)%string)
                  (firstn 10 (opendosm index))
                ++ map (fun d =>
                          ("- **" ++ id d ++ "** (Data Catalogue): "
                             ++ name d)%string)
                     (firstn 10 (data_catalogue index))).
  { unfold popular_lines. rewrite !push_lines.
    rewrite !slice_from_0_nonneg by lia. reflexivity. }
  split; [exact H|].
  rewrite H, length_app, !length_map, !length_firstn. lia.
Qed.

(** ** The cancellation handle *)

Section ControllerFacts.

Import Controller.

Lemma step_well_formed (c : ClientState) (op : Op) :
  well_formed c -> well_formed (step c op).
Proof.
  intros (Hcur & Hab & Hnd). destruct op; cbn.
  - split; [|split].
    + cbn. intros h H. injection H as <-. split; [lia|].
      intros Hin. apply Hab in Hin. lia.
    + cbn. intros h Hin. apply Hab in Hin. lia.
    + exact Hnd.
  - unfold close. destruct (abortController c) as [h|] eqn:E.
    + destruct (Hcur h eq_refl) as [Hlt Hnot]. split; [|split]; cbn.
      * intros h' H. discriminate H.
      * intros h' [<-|Hin]; [trivial|now apply Hab].
      * now constructor.
    + split; [|split]; trivial. rewrite E. intros h H. discriminate H.
Qed.

Lemma run_well_formed (ops : list Op) (c : ClientState) :
  well_formed c -> well_formed (run ops c).
Proof.
  revert c. induction ops as [|op ops IH]; intros c H; [exact H|].
  cbn. apply IH. now apply step_well_formed.
Qed.

(** A controller that is neither stored nor aborted stays so. *)
Lemma run_keeps_dropped (h : nat) (ops : list Op) (c : ClientState) :
  (h < created c)%nat -> abortController c <> Some h ->
  ~ In h (aborted c) ->
  ~ In h (aborted (run ops c)).
Proof.
  revert c. induction ops as [|op ops IH]; intros c Hlt Hcur Hnot;
    [exact Hnot|].
  cbn. apply IH.
  - destruct op; cbn; [lia|].
    unfold close. now destruct (abortController c).
  - destruct op; cbn.
    + intros H. injection H as H. lia.
    + unfold close. destruct (abortController c) as [h'|] eqn:E; cbn;
        [discriminate|now rewrite E].
  - destruct op; cbn; [trivial|].
    unfold close. destruct (abortController c) as [h'|]; [|trivial].
    cbn. intros [->|Hin]; [now apply Hcur|now apply Hnot].
Qed.

Lemma run_aborted_count (ops : list Op) (c : ClientState) :
  (List.length (aborted (run ops c))
   <= List.length (aborted c) + List.length (filter is_close ops))%nat.
Proof.
  revert c. induction ops as [|op ops IH]; intros c; [cbn; lia|].
  change (run (op :: ops) c) with (run ops (step c op)).
  specialize (IH (step c op)).
  assert (Hs : (List.length (aborted (step c op))
                <= List.length (aborted c)
                   + if is_close op then 1 else 0)%nat).
  { destruct op; cbn; [lia|].
    unfold close. destruct (abortController c); cbn; lia. }
  destruct op; cbn [filter is_close List.length] in *; lia.
Qed.

End ControllerFacts.

(** Whatever queries and [close] calls are made on a new client, only
    controllers that were created are aborted, none twice, the stored
    controller is not an aborted one, and each [close] aborts at most one
    controller; a second [close] in a row changes nothing. *)
Theorem client_controller_invariant :
  forall ops : list Controller.Op,
    Controller.well_formed (Controller.run ops Controller.initial)
    /\ (List.length (Controller.aborted (Controller.run ops Controller.initial))
        <= List.length (filter Controller.is_close ops))%nat
    /\ Controller.close
         (Controller.close (Controller.run ops Controller.initial))
       = Controller.close (Controller.run ops Controller.initial).
Proof.
  intros ops. split; [|split].
  - apply run_well_formed. split; [|split]; cbn.
    + intros h H. discriminate H.
    + intros h [].
    + constructor.
  - apply (run_aborted_count ops Controller.initial).
  - now destruct (Controller.run ops Controller.initial) as [[h|] n ab].
Qed.

(** Only the latest request can be cancelled: once a second query has
    started, the controller of the query before it is never aborted,
    whatever follows; a [close] right after a query aborts the controller
    of that query. *)
Theorem replaced_controller_is_never_aborted :
  forall (c : Controller.ClientState) (ops : list Controller.Op),
    Controller.well_formed c ->
    ~ In (Controller.created c)
        (Controller.aborted
           (Controller.run
              (Controller.Query :: Controller.Query :: ops) c))
    /\ In (Controller.created c)
         (Controller.aborted
            (Controller.run [Controller.Query; Controller.Close] c)).
Proof.
  intros c ops (Hcur & Hab & Hnd). split.
  - cbn. apply run_keeps_dropped; cbn.
    + lia.
    + intros H. injection H as H. lia.
    + intros Hin. apply Hab in Hin. lia.
  - cbn. now left.
Qed.

Lemma replaced_controller_is_never_aborted_witness :
  ~ In 0%nat
      (Controller.aborted
         (Controller.run
            [Controller.Query; Controller.Query; Controller.Close]
            Controller.initial)).
Proof.
  apply (replaced_controller_is_never_aborted Controller.initial
           [Controller.Close]).
  split; [|split]; cbn.
  - intros h H. discriminate H.
  - intros h [].
  - constructor.
Defined.

(** ** The launcher *)

Section LauncherFacts.

Import Launcher.

Variable spawnSync : SpawnSync.

Lemma findPython_cases :
  (exited_0 (spawnSync ["python3"; "--version"]) = true
   /\ findPython spawnSync = inr "python3"%string)
  \/ (exited_0 (spawnSync ["python3"; "--version"]) = false
      /\ exited_0 (spawnSync ["python"; "--version"]) = true
      /\ findPython spawnSync = inr "python"%string)
  \/ (exited_0 (spawnSync ["python3"; "--version"]) = false
      /\ exited_0 (spawnSync ["python"; "--version"]) = false
      /\ findPython spawnSync = inl no_python).
Proof.
  unfold findPython. cbn [first_working].
  destruct (exited_0 (spawnSync ["python3"; "--version"])); [now left|].
  destruct (exited_0 (spawnSync ["python"; "--version"]));
    [right; left|right; right]; now repeat split.
Qed.

Lemma code_or_0_zero (code : option Z) :
  code_or_0 code = 0 <-> code = None \/ code = Some 0.
Proof.
  destruct code as [c|]; cbn; [|tauto].
  destruct (Z.eqb_spec c 0) as [->|Hc].
  - tauto.
  - split; [contradiction|]. intros [H|H]; [discriminate H|].
    now injection H.
Qed.

Lemma on_event_zero (python : string) (event : ServerEvent) :
  on_event python event = Exited 0
  <-> event = ServerExit None \/ event = ServerExit (Some 0).
Proof.
  destruct event as [|code|]; cbn.
  - split; [discriminate|intros [H|H]; discriminate H].
  - split.
    + intros H. injection H as H. apply code_or_0_zero in H as [->| ->]; auto.
    + intros [H|H]; injection H as ->; reflexivity.
  - split; [discriminate|intros [H|H]; discriminate H].
Qed.

End LauncherFacts.

(** The launcher reports success (exit code 0) exactly when it found an
    interpreter, the import check or else the installation exited with 0,
    and the server it spawned exited with 0 or after a signal. The server is
    spawned exactly when an interpreter is found and the import check or
    else the installation exits with 0; after a failed installation the
    launcher exits with 1 without spawning; without an interpreter it
    throws the error of [findPython] and runs nothing. [findPython] returns
    an interpreter whose [--version] exits with 0, [python] only when
    [python3] does not. *)
Theorem launcher_outcomes :
  forall (spawnSync : Launcher.SpawnSync) (event : Launcher.ServerEvent),
    (fst (Launcher.startServer spawnSync event) = Launcher.Exited 0
     <-> exists python : string,
           Launcher.findPython spawnSync = inr python
           /\ (Launcher.exited_0 (spawnSync [python; "-c"; "import mcp"])
               = true
               \/ Launcher.exited_0
                    (spawnSync [python; "-m"; "pip"; "install"; "-e"; "."])
                  = true)
           /\ (event = Launcher.ServerExit None
               \/ event = Launcher.ServerExit (Some 0)))
    /\ ((exists python : string,
            In (Launcher.server_command python)
              (snd (Launcher.startServer spawnSync event)))
        <-> exists python : string,
              Launcher.findPython spawnSync = inr python
              /\ (Launcher.exited_0 (spawnSync [python; "-c"; "import mcp"])
                  = true
                  \/ Launcher.exited_0
                       (spawnSync [python; "-m"; "pip"; "install"; "-e"; "."])
                     = true))
    /\ (forall python : string,
           Launcher.findPython spawnSync = inr python ->
           Launcher.exited_0 (spawnSync [python; "-c"; "import mcp"]) = false ->
           Launcher.exited_0
             (spawnSync [python; "-m"; "pip"; "install"; "-e"; "."])
           = false ->
           Launcher.startServer spawnSync event
           = (Launcher.Exited 1,
              [[python; "-c"; "import mcp"];
               [python; "-m"; "pip"; "install"; "-e"; "."]]))
    /\ (forall message : string,
           Launcher.findPython spawnSync = inl message ->
           Launcher.startServer spawnSync event
           = (Launcher.Threw message, []))
    /\ (forall python : string,
           Launcher.findPython spawnSync = inr python ->
           Launcher.exited_0 (spawnSync [python; "--version"]) = true
           /\ (python = "python3"%string
               \/ python = "python"%string
                  /\ Launcher.exited_0 (spawnSync ["python3"; "--version"])
                     = false))
    /\ (Launcher.findPython spawnSync = inl Launcher.no_python
        <-> Launcher.exited_0 (spawnSync ["python3"; "--version"]) = false
            /\ Launcher.exited_0 (spawnSync ["python"; "--version"])
               = false).
Proof.
  intros spawnSync event.
  assert (Hrun : forall python,
             Launcher.findPython spawnSync = inr python ->
             Launcher.startServer spawnSync event
             = if negb (Launcher.exited_0
                          (spawnSync [python; "-c"; "import mcp"]))
               then if negb (Launcher.exited_0
                               (spawnSync
                                  [python; "-m"; "pip"; "install"; "-e";
                                   "."]))
                    then (Launcher.Exited 1,
                          [[python; "-c"; "import mcp"];
                           [python; "-m"; "pip"; "install"; "-e"; "."]])
                    else (Launcher.on_event python event,
                          [[python; "-c"; "import mcp"];
                           [python; "-m"; "pip"; "install"; "-e"; "."];
                           Launcher.server_command python])
               else (Launcher.on_event python event,
                     [[python; "-c"; "import mcp"];
                      Launcher.server_command python])).
  { intros python H. unfold Launcher.startServer. now rewrite H. }
  assert (Hnone : forall message,
             Launcher.findPython spawnSync = inl message ->
             Launcher.startServer spawnSync event
             = (Launcher.Threw message, [])).
  { intros message H. unfold Launcher.startServer. now rewrite H. }
  split; [|split; [|split; [|split; [|split]]]].
  - destruct (Launcher.findPython spawnSync) as [message|python] eqn:E.
    + rewrite (Hnone message eq_refl). cbn. split; [discriminate|].
      intros (p & H & _). discriminate H.
    + rewrite (Hrun python eq_refl).
      destruct (Launcher.exited_0 (spawnSync [python; "-c"; "import mcp"]))
        eqn:Ec; cbn [negb];
        [|destruct (Launcher.exited_0
                      (spawnSync
                         [python; "-m"; "pip"; "install"; "-e"; "."]))
            eqn:Ei; cbn [negb]]; cbn [fst].
      * rewrite on_event_zero. split.
        -- intros H. exists python. now repeat split; auto.
        -- intros (p & Hp & _ & H). exact H.
      * rewrite on_event_zero. split.
        -- intros H. exists python. now repeat split; auto.
        -- intros (p & Hp & _ & H). exact H.
      * split; [discriminate|].
        intros (p & Hp & [H|H] & _); injection Hp as <-; congruence.
  - destruct (Launcher.findPython spawnSync) as [message|python] eqn:E.
    + rewrite (Hnone message eq_refl). cbn. split.
      * intros (p & []).
      * intros (p & H & _). discriminate H.
    + rewrite (Hrun python eq_refl).
      destruct (Launcher.exited_0 (spawnSync [python; "-c"; "import mcp"]))
        eqn:Ec; cbn [negb];
        [|destruct (Launcher.exited_0
                      (spawnSync
                         [python; "-m"; "pip"; "install"; "-e"; "."]))
            eqn:Ei; cbn [negb]]; cbn [snd].
      * split.
        -- intros _. exists python. split; [reflexivity|now left].
        -- intros _. exists python. cbn. right. left. reflexivity.
      * split.
        -- intros _. exists python. split; [reflexivity|now right].
        -- intros _. exists python. cbn. right. right. left. reflexivity.
      * split.
        -- intros (p & [H|[H|[]]]); discriminate H.
        -- intros (p & Hp & [H|H]); injection Hp as <-; congruence.
  - intros python H Hc Hi. rewrite (Hrun python H), Hc, Hi. reflexivity.
  - exact Hnone.
  - intros python H.
    destruct (findPython_cases spawnSync)
      as [[E H3]|[(E3 & E2 & H2)|(E3 & E2 & H0)]];
      rewrite H in *.
    + injection H3 as ->. split; [exact E|now left].
    + injection H2 as ->. split; [exact E2|right; now split].
    + discriminate H0.
  - destruct (findPython_cases spawnSync)
      as [[E H3]|[(E3 & E2 & H2)|(E3 & E2 & H0)]].
    + rewrite H3, E. split; [discriminate|intros [H _]; discriminate H].
    + rewrite H2, E2. split; [discriminate|intros [_ H]; discriminate H].
    + rewrite H0. split; [now split|reflexivity].
Qed.
